(** * apytor: a retrying aria2c front end, verified against its description

    Shallow embedding of [apytor.py].  Python [str] values are modelled as
    Rocq [string]s whose characters are read as the code points U+0000 to
    U+00FF; Python [int] is [Z]; a [list] of [str] is [list string].
    Effects (console output, the progress bar, child processes, sleeping,
    the file system) are threaded through a small state-and-exception monad
    whose state is the log of observable events. *)

From Stdlib Require Import ZArith List String Ascii Bool Lia DecimalString DecimalPos.
Import ListNotations.
Local Open Scope string_scope.
Local Open Scope Z_scope.

(** ** Exceptions and results *)

(** The exception classes that the modelled statements can raise.  All of
    them derive from [Exception]; [NotImplementedError] and [RecursionError]
    derive from [RuntimeError], [UnicodeDecodeError] from [ValueError],
    [FileNotFoundError] and [PermissionError] from [OSError].  [SystemExit]
    is not one of them: [sys.exit] is the separate [Exit] result below, which
    no [except Exception] clause intercepts. *)
Inductive exn_class : Type :=
| RuntimeError | NotImplementedError | RecursionError
| ValueError | UnicodeDecodeError
| IndexError
| OSError | FileNotFoundError | PermissionError
| EOFError
| MemoryError.

(** An exception instance: its class and [str(e)]. *)
Record exn : Type := Exn { exn_cls : exn_class; exn_msg : string }.

(** [isinstance(e, RuntimeError)], the test of [except RuntimeError]. *)
Definition is_RuntimeError (e : exn) : bool :=
  match exn_cls e with
  | RuntimeError | NotImplementedError | RecursionError => true
  | _ => false
  end.

Inductive result (A : Type) : Type :=
| Ok (a : A)
| Raise (e : exn)
| Exit (code : Z).
Arguments Ok {A} a.
Arguments Raise {A} e.
Arguments Exit {A} code.

(** ** Python string primitives *)

Module PyStr.

(** [str.isspace] on one character, for code points below 256. *)
Definition is_space (c : ascii) : bool :=
  let n := nat_of_ascii c in
  ((9 <=? n) && (n <=? 13) || (28 <=? n) && (n <=? 31)
   || (n =? 32) || (n =? 133) || (n =? 160))%nat.

Definition is_digit (c : ascii) : bool :=
  let n := nat_of_ascii c in ((48 <=? n) && (n <=? 57))%nat.

Definition digit_val (c : ascii) : Z := Z.of_nat (nat_of_ascii c) - 48.

Fixpoint lstrip (s : string) : string :=
  match s with
  | String c r => if is_space c then lstrip r else s
  | EmptyString => EmptyString
  end.

Fixpoint rstrip (s : string) : string :=
  match s with
  | String c r =>
      match rstrip r with
      | EmptyString => if is_space c then EmptyString else String c EmptyString
      | r' => String c r'
      end
  | EmptyString => EmptyString
  end.

(** [s.strip()] *)
Definition strip (s : string) : string := rstrip (lstrip s).

(** [c in s] for a one-character [c]. *)
Fixpoint contains (c : ascii) (s : string) : bool :=
  match s with
  | String d r => if Ascii.eqb d c then true else contains c r
  | EmptyString => false
  end.

(** [s.split(sep)] for a one-character separator: never empty. *)
Fixpoint split_on (sep : ascii) (s : string) : list string :=
  match s with
  | EmptyString => [EmptyString]
  | String c r =>
      if Ascii.eqb c sep then EmptyString :: split_on sep r
      else match split_on sep r with
           | t :: ts => String c t :: ts
           | [] => [String c EmptyString]
           end
  end.

Definition push_token (t : string) (ts : list string) : list string :=
  match t with EmptyString => ts | _ => t :: ts end.

(** The token being read at the head of [s], and the tokens after it. *)
Fixpoint split_go (s : string) : string * list string :=
  match s with
  | EmptyString => (EmptyString, [])
  | String c r =>
      let (t, ts) := split_go r in
      if is_space c then (EmptyString, push_token t ts) else (String c t, ts)
  end.

(** [s.split()]: the maximal runs of non-whitespace characters. *)
Definition split (s : string) : list string :=
  let (t, ts) := split_go s in push_token t ts.

(** [s.startswith(p)] *)
Definition startswith (s p : string) : bool := String.prefix p s.

(** [sep.join(l)] *)
Definition join (sep : string) (l : list string) : string := String.concat sep l.

(** [str(n)] for an [int]. *)
Definition str_of_int (n : Z) : string := NilZero.string_of_int (Z.to_int n).

(** [l[i]] with Python's negative indices; [IndexError] out of range. *)
Definition getitem {A : Type} (l : list A) (i : Z) : result A :=
  let len := Z.of_nat (List.length l) in
  let j := if i <? 0 then i + len else i in
  if (j <? 0) || (len <=? j) then Raise (Exn IndexError "list index out of range")
  else match nth_error l (Z.to_nat j) with
       | Some a => Ok a
       | None => Raise (Exn IndexError "list index out of range")
       end.

(** The digits of a base-10 literal after its first digit: single
    underscores may separate digits, none may end the literal. *)
Fixpoint digits_from (acc : Z) (after_us : bool) (s : string) : option Z :=
  match s with
  | EmptyString => if after_us then None else Some acc
  | String c r =>
      if is_digit c then digits_from (10 * acc + digit_val c) false r
      else if Ascii.eqb c "_" then
             if after_us then None else digits_from acc true r
      else None
  end.

Definition parse_digits (s : string) : option Z :=
  match s with
  | String c r => if is_digit c then digits_from (digit_val c) false r else None
  | EmptyString => None
  end.

(** [int(s)]: surrounding whitespace, an optional sign, then the digits.
    The message of the [ValueError] leaves out the quoted literal, and the
    interpreter's optional cap on the number of digits is taken as off. *)
Definition int (s : string) : result Z :=
  let t := strip s in
  let signed :=
    match t with
    | String "+"%char r => parse_digits r
    | String "-"%char r => option_map Z.opp (parse_digits r)
    | _ => parse_digits t
    end in
  match signed with
  | Some n => Ok n
  | None => Raise (Exn ValueError "invalid literal for int() with base 10")
  end.

End PyStr.

(** ** Configuration

    The module-level constants of the script.  The three paths depend on the
    machine ([Path.home()], the bundle directory), so they are arguments of
    [default_config]; the other fields are the literals of the source. *)

Record Config : Type := {
  ARIA2_PATH : string;
  DEFAULT_CONF_DIR : string;
  DEFAULT_CONF_FILE : string;
  DEFAULT_DOWNLOAD_DIR : string;       (* [DEFAULT_DOWNLOAD_DIR.as_posix()] *)
  MAX_OVERALL_DOWNLOAD_LIMIT : string;
  MAX_OVERALL_UPLOAD_LIMIT : string;
  MAX_CONNECTIONS_PER_SERVER : string;
  RETRY_COUNT : Z;
  RETRY_DELAY_BASE : Z;
  LISTEN_PORT : string;
  ENABLE_DHT : bool;
  ENABLE_PEX : bool;
  EXTRA_TRACKERS : list string
}.

Definition default_config (aria2 conf_dir conf_file download_dir : string) : Config := {|
  ARIA2_PATH := aria2;
  DEFAULT_CONF_DIR := conf_dir;
  DEFAULT_CONF_FILE := conf_file;
  DEFAULT_DOWNLOAD_DIR := download_dir;
  MAX_OVERALL_DOWNLOAD_LIMIT := "4M";
  MAX_OVERALL_UPLOAD_LIMIT := "200K";
  MAX_CONNECTIONS_PER_SERVER := "4";
  RETRY_COUNT := 3;
  RETRY_DELAY_BASE := 5;
  LISTEN_PORT := "6881";
  ENABLE_DHT := true;
  ENABLE_PEX := true;
  EXTRA_TRACKERS :=
    [ "udp://tracker.opentrackr.org:1337/announce";
      "udp://open.stealth.si:80/announce";
      "udp://tracker.torrent.eu.org:451/announce";
      "udp://opentracker.i2p.rocks:6969/announce" ]
|}.

(** ** The environment of one run *)

(** What one child process does once [subprocess.Popen] is called. *)
Inductive outcome : Type :=
| SpawnRaises (e : exn)
    (* [Popen] itself raises *)
| StreamRaises (lines : list string) (e : exn)
    (* reading [process.stdout] raises after these lines *)
| Runs (lines : list string) (returncode : Z).
    (* the child writes these lines, closes its output and exits *)

(** Everything the script reads from outside.  [engine k cmd] is the
    behaviour of the child started by the [k]-th [Popen] call (counted from
    0) on the command line [cmd]. *)
Record Env : Type := {
  stdin_line : option string;          (* [input()]; [None] is end of file *)
  path_exists : string -> bool;        (* [Path(p).exists()] *)
  path_is_file : string -> bool;       (* [Path(p).is_file()] *)
  path_str : string -> string;         (* [str(Path(p))] *)
  engine : nat -> list string -> outcome
}.

(** ** Observable events and the monad *)

Inductive event : Type :=
| EvPrint (line : string)
| EvPrompt (text : string)
| EvMkdir (path : string)
| EvWriteText (path content : string)
| EvSpawn (cmd : list string)
| EvWait
| EvBarOpen (n total : Z)     (* [tqdm(total=...)]: a new bar, showing [n] of [total] *)
| EvBarRefresh (n : Z)       (* [pbar.n = n; pbar.refresh()] *)
| EvBarClose (n : Z)         (* [pbar.close()], [n] being [pbar.n] then *)
| EvSleep (seconds : Z).

(** The state: how many children were started, and the events so far in
    the order they happened. *)
Record State : Type := { launches : nat; trace : list event }.

Definition init_state : State := {| launches := 0; trace := [] |}.

(** The state [k] launches and the events [evs] later. *)
Definition after (st : State) (k : nat) (evs : list event) : State :=
  {| launches := launches st + k; trace := trace st ++ evs |}.

Definition M (A : Type) : Type := State -> result A * State.

Definition ret {A : Type} (a : A) : M A := fun st => (Ok a, st).

Definition bind {A B : Type} (m : M A) (k : A -> M B) : M B :=
  fun st =>
    match m st with
    | (Ok a, st') => k a st'
    | (Raise e, st') => (Raise e, st')
    | (Exit c, st') => (Exit c, st')
    end.

Notation "x <- m ;; k" := (bind m (fun x => k))
  (at level 61, m at next level, right associativity).
Notation "m ;; k" := (bind m (fun _ => k))
  (at level 61, right associativity).

Definition raise {A : Type} (e : exn) : M A := fun st => (Raise e, st).

(** [sys.exit(code)] *)
Definition sys_exit {A : Type} (code : Z) : M A := fun st => (Exit code, st).

(** Lifting of a computation without effects. *)
Definition lift {A : Type} (r : result A) : M A := fun st => (r, st).

Definition emit (e : event) : M unit :=
  fun st => (Ok tt, after st 0 [e]).

(** [try: body / except C as e: handler(e)], [C] given by its instance test. *)
Definition try_except {A : Type} (body : M A) (catches : exn -> bool)
    (handler : exn -> M A) : M A :=
  fun st =>
    match body st with
    | (Raise e, st') => if catches e then handler e st' else (Raise e, st')
    | r => r
    end.

(** [except Exception]: every modelled exception class derives from it. *)
Definition is_Exception (e : exn) : bool := true.

(** ** Utility functions *)

Definition print (s : string) : M unit := emit (EvPrint s).
Definition print_info (msg : string) : M unit := print ("[INFO] " ++ msg).
Definition print_warn (msg : string) : M unit := print ("[WARN] " ++ msg).
Definition print_error (msg : string) : M unit := print ("[ERROR] " ++ msg).

Section Program.

Variable env : Env.
Variable cfg : Config.

Definition ensure_dirs : M unit :=
  emit (EvMkdir (DEFAULT_DOWNLOAD_DIR cfg)) ;;
  emit (EvMkdir (DEFAULT_CONF_DIR cfg)).

Definition config_lines : list string :=
  [ "dir=" ++ DEFAULT_DOWNLOAD_DIR cfg;
    "continue=true";
    "check-integrity=true";
    "max-overall-download-limit=" ++ MAX_OVERALL_DOWNLOAD_LIMIT cfg;
    "max-overall-upload-limit=" ++ MAX_OVERALL_UPLOAD_LIMIT cfg;
    "max-connection-per-server=" ++ MAX_CONNECTIONS_PER_SERVER cfg;
    "min-split-size=10M";
    "split=8";
    "enable-rpc=false";
    "summary-interval=1";
    "console-log-level=notice";
    "file-allocation=prealloc";
    "listen-port=" ++ LISTEN_PORT cfg;
    "enable-dht=" ++ (if ENABLE_DHT cfg then "true" else "false");
    "enable-peer-exchange=" ++ (if ENABLE_PEX cfg then "true" else "false");
    "bt-enable-lpd=true";
    "bt-tracker-connect-timeout=10";
    "bt-tracker-timeout=15";
    "bt-timeout=60";
    "bt-request-peer-speed-limit=512K";
    "bt-max-peers=55" ]
  ++ match EXTRA_TRACKERS cfg with
     | [] => []
     | _ => ["bt-tracker=" ++ PyStr.join "," (EXTRA_TRACKERS cfg)]
     end.

Definition newline : string := String (ascii_of_nat 10) EmptyString.

Definition ensure_config : M unit :=
  if path_exists env (DEFAULT_CONF_FILE cfg) then ret tt
  else
    emit (EvWriteText (DEFAULT_CONF_FILE cfg) (PyStr.join newline config_lines)) ;;
    print_info ("Created default config at " ++ DEFAULT_CONF_FILE cfg).

(** The flags every command line starts with. *)
Definition base_args : list string :=
  [ if ENABLE_DHT cfg then "--enable-dht=true" else "--enable-dht=false";
    if ENABLE_PEX cfg then "--enable-peer-exchange=true"
    else "--enable-peer-exchange=false";
    "--max-overall-download-limit=" ++ MAX_OVERALL_DOWNLOAD_LIMIT cfg;
    "--max-overall-upload-limit=" ++ MAX_OVERALL_UPLOAD_LIMIT cfg;
    "--max-connection-per-server=" ++ MAX_CONNECTIONS_PER_SERVER cfg;
    "--continue=true";
    "--auto-file-renaming=true";
    "--summary-interval=1";
    "--dir=" ++ DEFAULT_DOWNLOAD_DIR cfg;
    "--listen-port=" ++ LISTEN_PORT cfg ]
  ++ match EXTRA_TRACKERS cfg with
     | [] => []
     | _ => ["--bt-tracker=" ++ PyStr.join "," (EXTRA_TRACKERS cfg)]
     end.

(** [None] is Python's [None]: the input has none of the three shapes. *)
Definition build_aria2_args (input_link : string) : option (list string) :=
  if PyStr.startswith input_link "magnet:" then
    Some (base_args ++ [input_link])%list
  else if PyStr.startswith input_link "http://"
          || PyStr.startswith input_link "https://" then
    Some (base_args ++ [input_link])%list
  else if path_is_file env input_link then
    Some (base_args ++ ["-T"; path_str env input_link])%list
  else None.

(** ** Progress parsing and process supervision *)

Definition rbind {A B : Type} (r : result A) (k : A -> result B) : result B :=
  match r with
  | Ok a => k a
  | Raise e => Raise e
  | Exit c => Exit c
  end.

(** [int(line.split("%")[0].split()[-1])], with what it can raise. *)
Definition parse_percent (line : string) : result Z :=
  rbind (PyStr.getitem (PyStr.split_on "%" line) 0) (fun before =>
  rbind (PyStr.getitem (PyStr.split before) (-1)) (fun percent_str =>
  PyStr.int percent_str)).

(** The body of the [for line in process.stdout] loop; [n] is [pbar.n]
    before the line and the result is [pbar.n] after it. *)
Definition observe (n : Z) (raw : string) : M Z :=
  let line := PyStr.strip raw in
  n' <- (if PyStr.contains "%" line then
           try_except
             (percent <- lift (parse_percent line) ;;
              emit (EvBarRefresh percent) ;;
              ret percent)
             is_Exception
             (fun _ => ret n)
         else ret n) ;;
  print line ;;
  ret n'.

Fixpoint consume (n : Z) (lines : list string) : M Z :=
  match lines with
  | [] => ret n
  | raw :: rest => n' <- observe n raw ;; consume n' rest
  end.

(** [subprocess.Popen(cmd, ...)]: the next child of the environment. *)
Definition popen (cmd : list string) : M outcome :=
  fun st =>
    let st' := after st 1 [EvSpawn cmd] in
    match engine env (launches st) cmd with
    | SpawnRaises e => (Raise e, st')
    | o => (Ok o, st')
    end.

Definition run_with_progress (args : list string) : M unit :=
  let cmd := ARIA2_PATH cfg :: args in
  print_info ("Starting aria2c: " ++ PyStr.join " " cmd) ;;
  process <- popen cmd ;;
  emit (EvBarOpen 0 100) ;;
  match process with
  | SpawnRaises e => raise e
  | StreamRaises lines e => consume 0 lines ;; raise e
  | Runs lines returncode =>
      n <- consume 0 lines ;;
      emit EvWait ;;
      emit (EvBarClose n) ;;
      if negb (returncode =? 0) then
        raise (Exn RuntimeError
                 ("aria2c exited with status " ++ PyStr.str_of_int returncode))
      else print_info "Download completed successfully."
  end.

(** ** Retries and fallback *)

(** [range(lo, hi)] *)
Definition py_range (lo hi : Z) : list Z :=
  map (fun i => lo + Z.of_nat i) (seq 0 (Z.to_nat (hi - lo))).

(** [time.sleep(seconds)] *)
Definition sleep (seconds : Z) : M unit :=
  if seconds <? 0 then raise (Exn ValueError "sleep length must be non-negative")
  else emit (EvSleep seconds).

(** The [for attempt in range(1, RETRY_COUNT + 1)] loop over the attempts
    still to make.  The result tells whether the function returned from
    inside the loop.  ([last_error] is only ever printed, at the place where
    it is assigned.) *)
Fixpoint retry_loop (args : list string) (attempts : list Z) : M bool :=
  match attempts with
  | [] => ret false
  | attempt :: rest =>
      print_info ("Attempt " ++ PyStr.str_of_int attempt ++ "/"
                  ++ PyStr.str_of_int (RETRY_COUNT cfg)) ;;
      returned <-
        try_except
          (run_with_progress args ;; ret true)
          is_RuntimeError
          (fun e =>
             let last_error := exn_msg e in
             print_warn last_error ;;
             (if attempt <? RETRY_COUNT cfg then
                let delay := RETRY_DELAY_BASE cfg * attempt in
                print_info ("Retrying in " ++ PyStr.str_of_int delay ++ " seconds...") ;;
                sleep delay
              else ret tt) ;;
             ret false) ;;
      if returned : bool then ret true else retry_loop args rest
  end.

(** The local [fallback_args] of [download_with_retries]. *)
Definition fallback_args (args : list string) : list string :=
  (args ++ [ "--bt-enable-lpd=true";
             "--bt-detach-seed-only=true";
             "--timeout=30";
             "--connect-timeout=20";
             "--retry-wait=10" ])%list.

Definition download_with_retries (input_link : string) : M unit :=
  match build_aria2_args input_link with
  | None =>
      raise (Exn ValueError
               "Invalid input. Must be magnet link, torrent URL, or local .torrent file path.")
  | Some args =>
      returned <- retry_loop args (py_range 1 (RETRY_COUNT cfg + 1)) ;;
      if returned : bool then ret tt
      else
        print_warn "Applying fallback options..." ;;
        run_with_progress (fallback_args args)
  end.

(** ** The entry point *)

(** [input(prompt)] *)
Definition input (prompt : string) : M string :=
  emit (EvPrompt prompt) ;;
  match stdin_line env with
  | Some s => ret s
  | None => raise (Exn EOFError "EOF when reading a line")
  end.

Definition is_empty (s : string) : bool :=
  match s with EmptyString => true | _ => false end.

Definition main : M unit :=
  print "Welcome to your Torrent Manager (aria2)" ;;
  typed <- input ("Paste magnet link, torrent URL, or local .torrent file path:"
                  ++ newline ++ "> ") ;;
  let user_input := PyStr.strip typed in
  (if is_empty user_input then
     print_error "No input provided." ;; sys_exit 1
   else ret tt) ;;
  ensure_dirs ;;
  ensure_config ;;
  (if negb (path_exists env (ARIA2_PATH cfg)) then
     print_error ("aria2c not found at " ++ ARIA2_PATH cfg ++ ". Please check the path.") ;;
     sys_exit 1
   else ret tt) ;;
  print_info ("Using aria2c at: " ++ ARIA2_PATH cfg) ;;
  (if negb (PyStr.startswith user_input "magnet:"
            || PyStr.startswith user_input "http://"
            || PyStr.startswith user_input "https://")
      && negb (path_exists env user_input) then
     print_error "The file path you entered does not exist." ;; sys_exit 1
   else ret tt) ;;
  try_except
    (download_with_retries user_input)
    is_Exception
    (fun e => print_error (exn_msg e) ;; sys_exit 2).

(** The status the interpreter ends with: 0 when [main] returns, the
    argument of [sys.exit], 1 after an exception nobody handled. *)
Definition exit_status (r : result unit) : Z :=
  match r with
  | Ok _ => 0
  | Exit code => code
  | Raise _ => 1
  end.

Definition run : Z * State :=
  let (r, st) := main init_state in (exit_status r, st).

End Program.

(** ** The description's vocabulary

    The definitions below do not come from the script.  They spell out the
    components its description speaks of, so that the script can be compared
    with them. *)

(** LaunchSpec: what an input was classified as. *)
Inductive LaunchSpec : Type :=
| Magnet (uri : string)
| DirectURL (uri : string)
| LocalDescriptor (path : string).

Inductive Profile : Type := Normal | Fallback.

(** InputClassifier, rules 1 to 4 in their order; [None] is the
    classification failure. *)
Definition classify (env : Env) (raw : string) : option LaunchSpec :=
  if PyStr.startswith raw "magnet:" then Some (Magnet raw)
  else if PyStr.startswith raw "http://" || PyStr.startswith raw "https://"
  then Some (DirectURL raw)
  else if path_is_file env raw then Some (LocalDescriptor (path_str env raw))
  else None.

(** The five hardening flags, in the order the description lists them. *)
Definition hardening_flags : list string :=
  [ "--bt-enable-lpd=true";       (* local peer discovery on *)
    "--bt-detach-seed-only=true"; (* detach after seeding *)
    "--timeout=30";               (* overall timeout *)
    "--connect-timeout=20";       (* connect timeout *)
    "--retry-wait=10" ].          (* wait between the engine's retries *)

(** ArgumentBuilder: always-present flags, the tail of the launch spec and,
    for the fallback profile, the hardening flags. *)
Definition build (spec : LaunchSpec) (cfg : Config) (profile : Profile)
  : list string :=
  (base_args cfg
   ++ match spec with
      | Magnet uri | DirectURL uri => [uri]
      | LocalDescriptor path => ["-T"; path]
      end
   ++ match profile with
      | Normal => []
      | Fallback => hardening_flags
      end)%list.

(** The argument list the script hands to the engine for an input under a
    profile: [args] for the normal attempts, [fallback_args] for the last. *)
Definition script_args (env : Env) (cfg : Config) (profile : Profile)
    (input_link : string) : option (list string) :=
  match profile with
  | Normal => build_aria2_args env cfg input_link
  | Fallback => option_map fallback_args (build_aria2_args env cfg input_link)
  end.

(** The text of [s] before its first [c], all of [s] when there is none. *)
Fixpoint before_first (c : ascii) (s : string) : string :=
  match s with
  | EmptyString => EmptyString
  | String d r => if Ascii.eqb d c then EmptyString else String d (before_first c r)
  end.

Fixpoint last_of {A : Type} (l : list A) : option A :=
  match l with
  | [] => None
  | [a] => Some a
  | _ :: r => last_of r
  end.

(** ProgressTracker's extraction rule: a line with a percent sign gives the
    integer that its last whitespace-separated token before the first
    percent sign parses to; anything else gives no percentage. *)
Definition extraction_rule (line : string) : option Z :=
  if PyStr.contains "%" line then
    match last_of (PyStr.split (before_first "%" line)) with
    | Some token =>
        match PyStr.int token with
        | Ok percent => Some percent
        | _ => None
        end
    | None => None
    end
  else None.

(** The percentages a sequence of lines makes the tracker accept. *)
Definition accepted (lines : list string) : list Z :=
  flat_map (fun raw => match extraction_rule raw with
                       | Some p => [p]
                       | None => []
                       end) lines.

(** The bar's value after [lines], having been [n] before them. *)
Definition bar_value (n : Z) (lines : list string) : Z := last (accepted lines) n.

(** What one line makes the bar show. *)
Definition refresh_of (raw : string) : list event :=
  match extraction_rule raw with
  | Some p => [EvBarRefresh p]
  | None => []
  end.

(** What the loop over the child's output shows, in order. *)
Definition line_events (lines : list string) : list event :=
  flat_map (fun raw => (refresh_of raw ++ [EvPrint (PyStr.strip raw)])%list) lines.

(** ** One attempt, summarised

    How a call of [run_with_progress] ends and what it shows, as functions
    of what the child does. *)

Definition exit_message (returncode : Z) : string :=
  "aria2c exited with status " ++ PyStr.str_of_int returncode.

Definition attempt_result (o : outcome) : result unit :=
  match o with
  | SpawnRaises e => Raise e
  | StreamRaises _ e => Raise e
  | Runs _ returncode =>
      if returncode =? 0 then Ok tt
      else Raise (Exn RuntimeError (exit_message returncode))
  end.

Definition attempt_events (cfg : Config) (args : list string) (o : outcome)
  : list event :=
  let cmd := ARIA2_PATH cfg :: args in
  ([ EvPrint ("[INFO] Starting aria2c: " ++ PyStr.join " " cmd); EvSpawn cmd ]
   ++ match o with
      | SpawnRaises _ => []
      | StreamRaises lines _ => EvBarOpen 0 100 :: line_events lines
      | Runs lines returncode =>
          EvBarOpen 0 100 :: line_events lines
          ++ [EvWait; EvBarClose (bar_value 0 lines)]
          ++ (if returncode =? 0
              then [EvPrint "[INFO] Download completed successfully."]
              else [])
      end)%list.

(** What announces attempt number [attempt]. *)
Definition attempt_banner (cfg : Config) (attempt : Z) : event :=
  EvPrint ("[INFO] Attempt " ++ PyStr.str_of_int attempt ++ "/"
           ++ PyStr.str_of_int (RETRY_COUNT cfg)).

(** What follows a failed attempt number [attempt] inside the loop: the
    warning and, before the last attempt of the budget, the backoff. *)
Definition backoff_events (cfg : Config) (attempt : Z) (reason : string)
  : list event :=
  EvPrint ("[WARN] " ++ reason)
  :: (if attempt <? RETRY_COUNT cfg then
        [ EvPrint ("[INFO] Retrying in "
                   ++ PyStr.str_of_int (RETRY_DELAY_BASE cfg * attempt)
                   ++ " seconds...");
          EvSleep (RETRY_DELAY_BASE cfg * attempt) ]
      else []).

(** What [main] shows before it looks at the input's shape. *)
Definition prelude_events (env : Env) (cfg : Config) : list event :=
  ([ EvPrint "Welcome to your Torrent Manager (aria2)";
     EvPrompt ("Paste magnet link, torrent URL, or local .torrent file path:"
               ++ newline ++ "> ");
     EvMkdir (DEFAULT_DOWNLOAD_DIR cfg);
     EvMkdir (DEFAULT_CONF_DIR cfg) ]
   ++ (if path_exists env (DEFAULT_CONF_FILE cfg) then []
       else [ EvWriteText (DEFAULT_CONF_FILE cfg)
                          (PyStr.join newline (config_lines cfg));
              EvPrint ("[INFO] Created default config at "
                       ++ DEFAULT_CONF_FILE cfg) ])
   ++ [ EvPrint ("[INFO] Using aria2c at: " ++ ARIA2_PATH cfg) ])%list.

(** The checks of [main] before the download pass: something other than
    white space was typed, the engine's executable exists, and the input
    has a URI prefix or names an existing path. *)
Definition passes_checks (env : Env) (cfg : Config) (user_input : string) : Prop :=
  (exists typed, stdin_line env = Some typed /\ PyStr.strip typed = user_input)
  /\ user_input <> EmptyString
  /\ path_exists env (ARIA2_PATH cfg) = true
  /\ (PyStr.startswith user_input "magnet:"
       || PyStr.startswith user_input "http://"
       || PyStr.startswith user_input "https://"
       || path_exists env user_input) = true.

(** ** Sample runs *)

Definition demo_config : Config :=
  default_config "C:/aria2/aria2c.exe" "C:/Users/u/.aria2"
                 "C:/Users/u/.aria2/aria2.conf" "C:/Users/u/Downloads".

Definition demo_magnet : string := "magnet:?xt=urn:btih:EXAMPLE".

(** A machine where only the listed paths exist, [files] being the regular
    files among them, and where the user types [typed]. *)
Definition demo_env (typed : string) (paths files : list string)
    (engine : nat -> list string -> outcome) : Env := {|
  stdin_line := Some typed;
  path_exists := fun p => existsb (String.eqb p) paths;
  path_is_file := fun p => existsb (String.eqb p) files;
  path_str := fun p => p;
  engine := engine
|}.

(** An engine whose first [n] children exit with status 1 and whose later
    children exit with status 0, each after one line of output. *)
Definition failing_first (n : nat) : nat -> list string -> outcome :=
  fun k _ => Runs ["[#abc1 1.2MiB/10MiB(12%) CN:3 ...]"] (if (k <? n)%nat then 1 else 0).

(** An engine whose first [n] children exit with status 1 and whose next
    child cannot be started. *)
Definition spawn_fails_after (n : nat) (e : exn) : nat -> list string -> outcome :=
  fun k _ => if (k <? n)%nat then Runs [] 1 else SpawnRaises e.

(** The demo machine with the engine installed and a magnet link typed. *)
Definition demo_machine (engine : nat -> list string -> outcome) : Env :=
  demo_env demo_magnet [ARIA2_PATH demo_config] [] engine.

Definition demo_args : list string := (base_args demo_config ++ [demo_magnet])%list.

(** The line the description gives as an example of the engine's output. *)
Definition example_line : string := "[#abc1 1.2MiB/10MiB(12%) CN:3 ...]".

(** A machine with the engine installed on which the user types the name
    of an existing directory. *)
Definition directory_machine : Env :=
  demo_env "C:/Users/u" [ARIA2_PATH demo_config; "C:/Users/u"] [] (failing_first 0).

(** ** Observations on a trace *)

(** The process launches and the sleeps of a trace, in order. *)
Definition schedule (tr : list event) : list event :=
  filter (fun e => match e with
                   | EvSpawn _ | EvSleep _ => true
                   | _ => false
                   end) tr.

Definition spawned (tr : list event) : list (list string) :=
  flat_map (fun e => match e with EvSpawn cmd => [cmd] | _ => [] end) tr.

Definition slept (tr : list event) : list Z :=
  flat_map (fun e => match e with EvSleep s => [s] | _ => [] end) tr.

(** The launches and sleeps of [failed] normal attempts in a row, the first
    of them being attempt number [attempt]. *)
Fixpoint backoff_schedule (cfg : Config) (cmd : list string) (attempt : Z)
    (failed : nat) : list event :=
  match failed with
  | O => []
  | S n => EvSpawn cmd :: EvSleep (RETRY_DELAY_BASE cfg * attempt)
           :: backoff_schedule cfg cmd (attempt + 1) n
  end.

(** Exit codes in the description's terms. *)
Definition is_uri (s : string) : bool :=
  PyStr.startswith s "magnet:" || PyStr.startswith s "http://"
  || PyStr.startswith s "https://".

(** The delays the loop can sleep for while going through [attempts]: one
    per attempt below the budget, in order. *)
Definition backoff_delays (cfg : Config) (attempts : list Z) : list Z :=
  map (fun a => RETRY_DELAY_BASE cfg * a)
      (filter (fun a => a <? RETRY_COUNT cfg) attempts).

(** Events of the download itself, as opposed to the set-up of [main]. *)
Definition supervision_event (e : event) : bool :=
  match e with
  | EvPrompt _ | EvMkdir _ | EvWriteText _ _ => false
  | _ => true
  end.

(** What [main] has shown once the directories and the configuration file
    are in place. *)
Definition setup_events (env : Env) (cfg : Config) : list event :=
  ([ EvPrint "Welcome to your Torrent Manager (aria2)";
     EvPrompt ("Paste magnet link, torrent URL, or local .torrent file path:"
               ++ newline ++ "> ");
     EvMkdir (DEFAULT_DOWNLOAD_DIR cfg);
     EvMkdir (DEFAULT_CONF_DIR cfg) ]
   ++ (if path_exists env (DEFAULT_CONF_FILE cfg) then []
       else [ EvWriteText (DEFAULT_CONF_FILE cfg)
                          (PyStr.join newline (config_lines cfg));
              EvPrint ("[INFO] Created default config at "
                       ++ DEFAULT_CONF_FILE cfg) ]))%list.

(** The lines printed, and the files written, in a trace. *)
Definition printed (tr : list event) : list string :=
  flat_map (fun e => match e with EvPrint s => [s] | _ => [] end) tr.

Definition written (tr : list event) : list (string * string) :=
  flat_map (fun e => match e with EvWriteText p c => [(p, c)] | _ => [] end) tr.

(** What [main] shows first. *)
Definition welcome_events : list event :=
  [ EvPrint "Welcome to your Torrent Manager (aria2)";
    EvPrompt ("Paste magnet link, torrent URL, or local .torrent file path:"
              ++ newline ++ "> ") ].

(** The five ways a run can go. *)
Inductive run_shape (env : Env) (cfg : Config) : Z * State -> Prop :=
| AtEof :
    stdin_line env = None ->
    run_shape env cfg (1, after init_state 0 welcome_events)
| EmptyInput typed :
    stdin_line env = Some typed -> PyStr.strip typed = EmptyString ->
    run_shape env cfg (1, after init_state 0
                    (welcome_events ++ [EvPrint "[ERROR] No input provided."]))
| NoEngine typed :
    stdin_line env = Some typed -> PyStr.strip typed <> EmptyString ->
    path_exists env (ARIA2_PATH cfg) = false ->
    run_shape env cfg (1, after init_state 0
                    (setup_events env cfg
                     ++ [EvPrint ("[ERROR] aria2c not found at " ++ ARIA2_PATH cfg
                                  ++ ". Please check the path.")]))
| NoPath typed :
    stdin_line env = Some typed -> PyStr.strip typed <> EmptyString ->
    path_exists env (ARIA2_PATH cfg) = true ->
    is_uri (PyStr.strip typed) = false ->
    path_exists env (PyStr.strip typed) = false ->
    run_shape env cfg (1, after init_state 0
                    (prelude_events env cfg
                     ++ [EvPrint "[ERROR] The file path you entered does not exist."]))
| Downloaded typed k evs :
    stdin_line env = Some typed ->
    passes_checks env cfg (PyStr.strip typed) ->
    download_with_retries env cfg (PyStr.strip typed)
      (after init_state 0 (prelude_events env cfg))
    = (Ok tt, after (after init_state 0 (prelude_events env cfg)) k evs) ->
    forallb supervision_event evs = true ->
    (exists front,
        evs = (front ++ [EvPrint "[INFO] Download completed successfully."])%list) ->
    (1 <= k)%nat ->
    run_shape env cfg (0, after init_state k (prelude_events env cfg ++ evs))
| Failed typed k evs e :
    stdin_line env = Some typed ->
    passes_checks env cfg (PyStr.strip typed) ->
    download_with_retries env cfg (PyStr.strip typed)
      (after init_state 0 (prelude_events env cfg))
    = (Raise e, after (after init_state 0 (prelude_events env cfg)) k evs) ->
    forallb supervision_event evs = true ->
    (k = 0%nat -> build_aria2_args env cfg (PyStr.strip typed) = None) ->
    run_shape env cfg (2, after init_state k
                    (prelude_events env cfg ++ evs
                     ++ [EvPrint ("[ERROR] " ++ exn_msg e)])).

(** An engine all of whose children exit at once with status [rc]. *)
Definition always_exits (rc : Z) : nat -> list string -> outcome :=
  fun _ _ => Runs [] rc.

(** The demo configuration with another retry budget and delay base. *)
Definition demo_config_with (count base : Z) : Config := {|
  ARIA2_PATH := ARIA2_PATH demo_config;
  DEFAULT_CONF_DIR := DEFAULT_CONF_DIR demo_config;
  DEFAULT_CONF_FILE := DEFAULT_CONF_FILE demo_config;
  DEFAULT_DOWNLOAD_DIR := DEFAULT_DOWNLOAD_DIR demo_config;
  MAX_OVERALL_DOWNLOAD_LIMIT := MAX_OVERALL_DOWNLOAD_LIMIT demo_config;
  MAX_OVERALL_UPLOAD_LIMIT := MAX_OVERALL_UPLOAD_LIMIT demo_config;
  MAX_CONNECTIONS_PER_SERVER := MAX_CONNECTIONS_PER_SERVER demo_config;
  RETRY_COUNT := count;
  RETRY_DELAY_BASE := base;
  LISTEN_PORT := LISTEN_PORT demo_config;
  ENABLE_DHT := ENABLE_DHT demo_config;
  ENABLE_PEX := ENABLE_PEX demo_config;
  EXTRA_TRACKERS := EXTRA_TRACKERS demo_config
|}.

(** The number a string of decimal digits stands for, read after [acc]. *)
Fixpoint uint_value (acc : Z) (d : Decimal.uint) : Z :=
  match d with
  | Decimal.Nil => acc
  | Decimal.D0 l => uint_value (10 * acc + 0) l
  | Decimal.D1 l => uint_value (10 * acc + 1) l
  | Decimal.D2 l => uint_value (10 * acc + 2) l
  | Decimal.D3 l => uint_value (10 * acc + 3) l
  | Decimal.D4 l => uint_value (10 * acc + 4) l
  | Decimal.D5 l => uint_value (10 * acc + 5) l
  | Decimal.D6 l => uint_value (10 * acc + 6) l
  | Decimal.D7 l => uint_value (10 * acc + 7) l
  | Decimal.D8 l => uint_value (10 * acc + 8) l
  | Decimal.D9 l => uint_value (10 * acc + 9) l
  end.

(** A string none of whose characters is white space or [avoid]. *)
Fixpoint plain (avoid : ascii) (s : string) : bool :=
  match s with
  | EmptyString => true
  | String c r => negb (PyStr.is_space c) && negb (Ascii.eqb c avoid) && plain avoid r
  end.

(** The machine [env] with [typed] typed at the prompt. *)
Definition with_input (env : Env) (typed : string) : Env := {|
  stdin_line := Some typed;
  path_exists := path_exists env;
  path_is_file := path_is_file env;
  path_str := path_str env;
  engine := engine env
|}.

(** The engine's progress readout at [percent] per cent, in the format of
    [example_line]: the percentage in brackets, right after the sizes. *)
Definition readout_line (percent : Z) : string :=
  "[#abc1 1.2MiB/10MiB(" ++ PyStr.str_of_int percent ++ "%) CN:3 ...]".

(** The sum of a list of integers. *)
Definition total (l : list Z) : Z := fold_right Z.add 0 l.

(** * Properties *)

(** ** Strings *)

Section StringFacts.

Lemma eqb_space_other (a c : ascii) :
  PyStr.is_space a = true -> PyStr.is_space c = false -> Ascii.eqb a c = false.
Proof.
  intros Ha Hc. destruct (Ascii.eqb a c) eqn:E; [|reflexivity].
  apply Ascii.eqb_eq in E. congruence.
Qed.

Lemma contains_lstrip (c : ascii) (s : string) :
  PyStr.is_space c = false ->
  PyStr.contains c (PyStr.lstrip s) = PyStr.contains c s.
Proof.
  intros Hc. induction s as [|a r IH]; [reflexivity|].
  cbn [PyStr.lstrip]. destruct (PyStr.is_space a) eqn:Ha; [|reflexivity].
  cbn [PyStr.contains]. now rewrite (eqb_space_other a c Ha Hc).
Qed.

Lemma contains_rstrip (c : ascii) (s : string) :
  PyStr.is_space c = false ->
  PyStr.contains c (PyStr.rstrip s) = PyStr.contains c s.
Proof.
  intros Hc. induction s as [|a r IH]; [reflexivity|].
  cbn [PyStr.rstrip]. change (PyStr.contains c (String a r))
    with (if Ascii.eqb a c then true else PyStr.contains c r).
  rewrite <- IH.
  destruct (PyStr.rstrip r) as [|b r'] eqn:Er; [|reflexivity].
  destruct (PyStr.is_space a) eqn:Ha; [|reflexivity].
  now rewrite (eqb_space_other a c Ha Hc).
Qed.

Lemma contains_strip (c : ascii) (s : string) :
  PyStr.is_space c = false ->
  PyStr.contains c (PyStr.strip s) = PyStr.contains c s.
Proof.
  intros Hc. unfold PyStr.strip.
  now rewrite contains_rstrip, contains_lstrip.
Qed.

Lemma push_token_empty (ts : list string) : PyStr.push_token EmptyString ts = ts.
Proof. reflexivity. Qed.

Lemma split_space_cons (a : ascii) (s : string) :
  PyStr.is_space a = true -> PyStr.split (String a s) = PyStr.split s.
Proof.
  intros Ha. unfold PyStr.split. cbn [PyStr.split_go].
  destruct (PyStr.split_go s) as [t ts]. now rewrite Ha.
Qed.

Lemma split_before_lstrip (c : ascii) (s : string) :
  PyStr.is_space c = false ->
  PyStr.split (before_first c (PyStr.lstrip s)) = PyStr.split (before_first c s).
Proof.
  intros Hc. induction s as [|a r IH]; [reflexivity|].
  cbn [PyStr.lstrip]. destruct (PyStr.is_space a) eqn:Ha; [|reflexivity].
  cbn [before_first]. rewrite (eqb_space_other a c Ha Hc).
  now rewrite split_space_cons.
Qed.

Lemma before_first_rstrip (c : ascii) (s : string) :
  PyStr.is_space c = false -> PyStr.contains c s = true ->
  before_first c (PyStr.rstrip s) = before_first c s.
Proof.
  intros Hc. induction s as [|a r IH]; [reflexivity|].
  cbn [PyStr.contains]. intros H.
  cbn [PyStr.rstrip before_first].
  destruct (Ascii.eqb a c) eqn:Eac.
  - apply Ascii.eqb_eq in Eac. subst a.
    destruct (PyStr.rstrip r); [rewrite Hc|]; cbn [before_first];
      now rewrite Ascii.eqb_refl.
  - specialize (IH H).
    pose proof (contains_rstrip c r Hc) as Hr. rewrite H in Hr.
    destruct (PyStr.rstrip r) as [|b r'] eqn:Er; [discriminate Hr|].
    cbn [before_first] in *. now rewrite Eac, IH.
Qed.

Lemma percent_not_space : PyStr.is_space "%" = false.
Proof. reflexivity. Qed.

(** Stripping a line does not change what the rule extracts from it. *)
Lemma extraction_rule_strip (raw : string) :
  extraction_rule (PyStr.strip raw) = extraction_rule raw.
Proof.
  unfold extraction_rule.
  rewrite (contains_strip _ _ percent_not_space).
  destruct (PyStr.contains "%" raw) eqn:Hc; [|reflexivity].
  unfold PyStr.strip.
  rewrite before_first_rstrip;
    [|exact percent_not_space
     |now rewrite (contains_lstrip _ _ percent_not_space)].
  now rewrite (split_before_lstrip _ _ percent_not_space).
Qed.

Lemma split_on_head (c : ascii) (s : string) :
  exists ts, PyStr.split_on c s = before_first c s :: ts.
Proof.
  induction s as [|a r [ts IH]]; [now exists []|].
  cbn [PyStr.split_on before_first]. destruct (Ascii.eqb a c).
  - now eexists.
  - rewrite IH. now eexists.
Qed.

Lemma getitem_first {A : Type} (a : A) (l : list A) :
  PyStr.getitem (a :: l) 0 = Ok a.
Proof.
  unfold PyStr.getitem. cbn [List.length].
  replace (0 <? 0) with false by reflexivity.
  replace (Z.of_nat (S (List.length l)) <=? 0) with false
    by (symmetry; apply Z.leb_gt; lia).
  reflexivity.
Qed.

Lemma nth_error_last_of {A : Type} (l : list A) :
  nth_error l (Nat.pred (List.length l)) = last_of l.
Proof.
  induction l as [|a [|b r] IH]; try reflexivity.
  exact IH.
Qed.

Lemma getitem_last {A : Type} (l : list A) :
  PyStr.getitem l (-1) =
  match last_of l with
  | Some a => Ok a
  | None => Raise (Exn IndexError "list index out of range")
  end.
Proof.
  unfold PyStr.getitem. replace (-1 <? 0) with true by reflexivity.
  destruct l as [|a r]; [reflexivity|].
  set (l := a :: r).
  assert (Hlen : Z.of_nat (List.length l) >= 1) by (subst l; cbn [List.length]; lia).
  replace (-1 + Z.of_nat (List.length l) <? 0) with false
    by (symmetry; apply Z.ltb_ge; lia).
  replace (Z.of_nat (List.length l) <=? -1 + Z.of_nat (List.length l)) with false
    by (symmetry; apply Z.leb_gt; lia).
  cbn [orb].
  replace (Z.to_nat (-1 + Z.of_nat (List.length l)))
    with (Nat.pred (List.length l)) by lia.
  rewrite nth_error_last_of. now destruct (last_of l).
Qed.

Lemma int_never_exits (s : string) (code : Z) : PyStr.int s <> Exit code.
Proof.
  unfold PyStr.int.
  now destruct (match PyStr.strip s with
                | String "+"%char r => _ | String "-"%char r => _ | _ => _
                end).
Qed.

(** The script's expression computes the rule, and never exits. *)
Lemma parse_percent_rule (line : string) :
  PyStr.contains "%" line = true ->
  match parse_percent line with
  | Ok p => extraction_rule line = Some p
  | Raise _ => extraction_rule line = None
  | Exit _ => False
  end.
Proof.
  intros Hc. unfold parse_percent, extraction_rule. rewrite Hc.
  destruct (split_on_head "%" line) as [ts ->].
  rewrite getitem_first. cbn [rbind]. rewrite getitem_last.
  destruct (last_of (PyStr.split (before_first "%" line))) as [tok|];
    cbn [rbind]; [|reflexivity].
  destruct (PyStr.int tok) eqn:E; try reflexivity.
  now apply int_never_exits in E.
Qed.

End StringFacts.

(** ** States *)

Lemma after_nil (st : State) : after st 0 [] = st.
Proof.
  destruct st as [k tr]. unfold after. cbn [launches trace].
  now rewrite Nat.add_0_r, app_nil_r.
Qed.

Lemma after_after (st : State) (j k : nat) (e1 e2 : list event) :
  after (after st j e1) k e2 = after st (j + k) (e1 ++ e2).
Proof.
  unfold after. cbn [launches trace]. now rewrite Nat.add_assoc, app_assoc.
Qed.

(** ** The progress loop *)

Section ProgressFacts.

(** One turn of the loop: it never raises, starts no process, and either
    keeps the bar or sets it to what the rule extracts. *)
Lemma observe_spec (n : Z) (raw : string) (st : State) :
  observe n raw st =
  (Ok (match extraction_rule raw with Some p => p | None => n end),
   after st 0 (refresh_of raw ++ [EvPrint (PyStr.strip raw)])).
Proof.
  unfold observe, refresh_of. rewrite <- (extraction_rule_strip raw).
  set (line := PyStr.strip raw).
  unfold bind, try_except, lift, print, emit, ret.
  destruct (PyStr.contains "%" line) eqn:Hc.
  - pose proof (parse_percent_rule line Hc) as H.
    destruct (parse_percent line) as [p|e|c]; [| |contradiction];
      rewrite H; cbn [is_Exception]; now rewrite ?after_after, ?after_nil.
  - unfold extraction_rule. rewrite Hc. now rewrite ?after_after, ?after_nil.
Qed.

Lemma last_cons_default {A : Type} (p n : A) (l : list A) :
  last (p :: l) n = last l p.
Proof.
  revert p n. induction l as [|a r IH]; intros p n; [reflexivity|].
  change (last (p :: a :: r) n) with (last (a :: r) n).
  now rewrite (IH a n), (IH a p).
Qed.

Lemma bar_value_cons (n : Z) (raw : string) (rest : list string) :
  bar_value n (raw :: rest) =
  bar_value (match extraction_rule raw with Some p => p | None => n end) rest.
Proof.
  unfold bar_value, accepted. cbn [flat_map].
  destruct (extraction_rule raw) as [p|]; [|reflexivity].
  cbn [app]. apply last_cons_default.
Qed.

(** The whole loop. *)
Lemma consume_spec (lines : list string) (n : Z) (st : State) :
  consume n lines st =
  (Ok (bar_value n lines), after st 0 (line_events lines)).
Proof.
  revert n st. induction lines as [|raw rest IH]; intros n st.
  - cbn [consume]. unfold ret. now rewrite after_nil.
  - cbn [consume]. unfold bind at 1. rewrite observe_spec, IH.
    now rewrite bar_value_cons, after_after.
Qed.

End ProgressFacts.

(** ** One attempt *)

Section AttemptFacts.

Variable env : Env.
Variable cfg : Config.

Lemma run_with_progress_spec (args : list string) (st : State) :
  let o := engine env (launches st) (ARIA2_PATH cfg :: args) in
  run_with_progress env cfg args st
  = (attempt_result o, after st 1 (attempt_events cfg args o)).
Proof.
  cbv zeta. unfold run_with_progress, attempt_result, attempt_events.
  unfold print_info, print.
  unfold bind at 1. unfold emit at 1. unfold bind at 1. unfold popen.
  cbn [launches after].
  rewrite Nat.add_0_r.
  destruct (engine env (launches st) (ARIA2_PATH cfg :: args))
    as [e|lines e|lines rc].
  - now rewrite after_after.
  - unfold bind, emit, raise. rewrite consume_spec.
    now rewrite !after_after.
  - unfold bind, emit, raise. rewrite consume_spec.
    destruct (rc =? 0); cbn [negb]; unfold print_info, print, emit;
      now rewrite !after_after, <- ?app_assoc.
Qed.

Lemma retry_loop_returns (args : list string) (attempt : Z) (rest : list Z)
    (st : State) :
  let o := engine env (launches st) (ARIA2_PATH cfg :: args) in
  attempt_result o = Ok tt ->
  retry_loop env cfg args (attempt :: rest) st
  = (Ok true, after st 1 (attempt_banner cfg attempt :: attempt_events cfg args o)).
Proof.
  cbv zeta. intros Hres. cbn [retry_loop].
  unfold print_info, print. unfold bind at 1. unfold emit at 1.
  unfold bind at 1. unfold try_except. unfold bind at 1.
  rewrite run_with_progress_spec. cbn [after launches].
  rewrite Nat.add_0_r, Hres. unfold ret.
  now rewrite after_after.
Qed.

Lemma retry_loop_retries (args : list string) (attempt : Z) (rest : list Z)
    (st : State) (e : exn) :
  let o := engine env (launches st) (ARIA2_PATH cfg :: args) in
  attempt_result o = Raise e ->
  is_RuntimeError e = true ->
  0 <= RETRY_DELAY_BASE cfg * attempt ->
  retry_loop env cfg args (attempt :: rest) st
  = retry_loop env cfg args rest
      (after st 1 (attempt_banner cfg attempt :: attempt_events cfg args o
                   ++ backoff_events cfg attempt (exn_msg e))).
Proof.
  cbv zeta. intros Hres Hcls Hdelay. cbn [retry_loop].
  unfold print_info, print. unfold bind at 1. unfold emit at 1.
  unfold bind at 1. unfold try_except. unfold bind at 1.
  rewrite run_with_progress_spec. cbn [after launches].
  rewrite Nat.add_0_r, Hres, Hcls.
  unfold print_warn, print, backoff_events, sleep.
  apply Z.ltb_ge in Hdelay. rewrite Hdelay.
  destruct (attempt <? RETRY_COUNT cfg);
    unfold bind, emit, ret; rewrite !after_after; cbn [Nat.add app];
    now rewrite <- ?app_assoc.
Qed.

Lemma retry_loop_propagates (args : list string) (attempt : Z) (rest : list Z)
    (st : State) (e : exn) :
  let o := engine env (launches st) (ARIA2_PATH cfg :: args) in
  attempt_result o = Raise e ->
  is_RuntimeError e = false ->
  retry_loop env cfg args (attempt :: rest) st
  = (Raise e, after st 1 (attempt_banner cfg attempt :: attempt_events cfg args o)).
Proof.
  cbv zeta. intros Hres Hcls. cbn [retry_loop].
  unfold print_info, print. unfold bind at 1. unfold emit at 1.
  unfold bind at 1. unfold try_except. unfold bind at 1.
  rewrite run_with_progress_spec. cbn [after launches].
  rewrite Nat.add_0_r, Hres, Hcls.
  now rewrite after_after.
Qed.

End AttemptFacts.

(** ** Launches and sleeps of a trace *)

Section ScheduleFacts.

Lemma schedule_app (a b : list event) :
  schedule (a ++ b) = (schedule a ++ schedule b)%list.
Proof. apply filter_app. Qed.

Lemma schedule_line_events (lines : list string) : schedule (line_events lines) = [].
Proof.
  induction lines as [|raw rest IH]; [reflexivity|].
  unfold line_events. cbn [flat_map]. fold (line_events rest).
  rewrite !schedule_app, IH. unfold refresh_of.
  now destruct (extraction_rule raw).
Qed.

Lemma schedule_attempt_events (cfg : Config) (args : list string) (o : outcome) :
  schedule (attempt_events cfg args o) = [EvSpawn (ARIA2_PATH cfg :: args)].
Proof.
  unfold attempt_events. rewrite schedule_app.
  destruct o as [e|lines e|lines rc].
  - reflexivity.
  - change (schedule (EvBarOpen 0 100 :: line_events lines))
      with (schedule (line_events lines)).
    now rewrite schedule_line_events.
  - change (schedule (EvBarOpen 0 100 :: ?l)) with (schedule l).
    rewrite !schedule_app, schedule_line_events.
    now destruct (rc =? 0).
Qed.

Lemma schedule_backoff_events (cfg : Config) (attempt : Z) (reason : string) :
  schedule (backoff_events cfg attempt reason)
  = if attempt <? RETRY_COUNT cfg
    then [EvSleep (RETRY_DELAY_BASE cfg * attempt)] else [].
Proof. unfold backoff_events. now destruct (attempt <? RETRY_COUNT cfg). Qed.

Lemma schedule_banner (cfg : Config) (attempt : Z) (l : list event) :
  schedule (attempt_banner cfg attempt :: l) = schedule l.
Proof. reflexivity. Qed.

Lemma schedule_print (s : string) (l : list event) :
  schedule (EvPrint s :: l) = schedule l.
Proof. reflexivity. Qed.

Lemma spawned_schedule (tr : list event) : spawned (schedule tr) = spawned tr.
Proof.
  induction tr as [|e r IH]; [reflexivity|].
  destruct e; cbn [schedule filter]; fold (schedule r); try exact IH.
  cbn [spawned flat_map app]. fold (spawned (schedule r)) (spawned r).
  now rewrite IH.
Qed.

Lemma slept_schedule (tr : list event) : slept (schedule tr) = slept tr.
Proof.
  induction tr as [|e r IH]; [reflexivity|].
  destruct e; cbn [schedule filter]; fold (schedule r); try exact IH.
  cbn [slept flat_map app]. fold (slept (schedule r)) (slept r).
  now rewrite IH.
Qed.

End ScheduleFacts.

Create Rewrite HintDb sched.
#[local] Hint Rewrite schedule_app schedule_attempt_events schedule_backoff_events
  schedule_banner schedule_print : sched.

(** ** The retry orchestrator *)

Section RetryFacts.

Variable env : Env.
Variable cfg : Config.

Lemma py_range_budget_3 : RETRY_COUNT cfg = 3 -> py_range 1 (RETRY_COUNT cfg + 1) = [1; 2; 3].
Proof. intros ->. reflexivity. Qed.

Lemma failed_exit (lines : list string) (rc : Z) :
  rc <> 0 ->
  attempt_result (Runs lines rc) = Raise (Exn RuntimeError (exit_message rc)).
Proof. intros H. cbn [attempt_result]. now apply Z.eqb_neq in H as ->. Qed.

(** Three failed normal attempts: the loop runs out, after two sleeps. *)
Lemma retry_loop_exhausted (args : list string) (st : State)
    (l1 l2 l3 : list string) (r1 r2 r3 : Z) :
  RETRY_COUNT cfg = 3 -> 0 <= RETRY_DELAY_BASE cfg ->
  let cmd := ARIA2_PATH cfg :: args in
  engine env (launches st) cmd = Runs l1 r1 -> r1 <> 0 ->
  engine env (launches st + 1) cmd = Runs l2 r2 -> r2 <> 0 ->
  engine env (launches st + 2) cmd = Runs l3 r3 -> r3 <> 0 ->
  retry_loop env cfg args [1; 2; 3] st
  = (Ok false,
     after st 3
       ((attempt_banner cfg 1 :: attempt_events cfg args (Runs l1 r1)
          ++ backoff_events cfg 1 (exit_message r1))
        ++ (attempt_banner cfg 2 :: attempt_events cfg args (Runs l2 r2)
          ++ backoff_events cfg 2 (exit_message r2))
        ++ (attempt_banner cfg 3 :: attempt_events cfg args (Runs l3 r3)
          ++ backoff_events cfg 3 (exit_message r3)))).
Proof.
  intros HR HB cmd E1 N1 E2 N2 E3 N3. subst cmd.
  rewrite (retry_loop_retries env cfg args 1 _ st (Exn RuntimeError (exit_message r1)));
    [|rewrite E1; now apply failed_exit|reflexivity|lia].
  rewrite E1.
  rewrite (retry_loop_retries env cfg args 2 _ _ (Exn RuntimeError (exit_message r2)));
    cbn [after launches];
    [|rewrite E2; now apply failed_exit|reflexivity|lia].
  rewrite E2.
  rewrite (retry_loop_retries env cfg args 3 _ _ (Exn RuntimeError (exit_message r3)));
    cbn [after launches];
    [|replace (launches st + 1 + 1)%nat with (launches st + 2)%nat by lia;
      rewrite E3; now apply failed_exit|reflexivity|lia].
  replace (launches st + 1 + 1)%nat with (launches st + 2)%nat by lia.
  rewrite E3. cbn [retry_loop exn_msg]. unfold ret.
  fold (after st 1 (attempt_banner cfg 1 :: attempt_events cfg args (Runs l1 r1)
          ++ backoff_events cfg 1 (exit_message r1))).
  now rewrite !after_after.
Qed.

Lemma py_range_cons (lo hi : Z) :
  lo < hi -> py_range lo hi = lo :: py_range (lo + 1) hi.
Proof.
  intros H. unfold py_range.
  replace (Z.to_nat (hi - lo)) with (S (Z.to_nat (hi - (lo + 1)))) by lia.
  cbn [seq map]. f_equal; [lia|].
  rewrite <- seq_shift, map_map. apply map_ext. intros i. lia.
Qed.

(** Any number of failed attempts below the budget: each is followed by
    its backoff and the loop goes on with the next attempt. *)
Lemma retry_loop_prefix (args : list string) (failed : nat) :
  forall (attempt : Z) (st : State),
    0 <= RETRY_DELAY_BASE cfg -> 1 <= attempt ->
    attempt + Z.of_nat failed <= RETRY_COUNT cfg ->
    (forall i, (i < failed)%nat ->
               exists lines rc,
                 engine env (launches st + i) (ARIA2_PATH cfg :: args) = Runs lines rc
                 /\ rc <> 0) ->
    exists evs,
      retry_loop env cfg args (py_range attempt (RETRY_COUNT cfg + 1)) st
      = retry_loop env cfg args
          (py_range (attempt + Z.of_nat failed) (RETRY_COUNT cfg + 1))
          (after st failed evs)
      /\ schedule evs = backoff_schedule cfg (ARIA2_PATH cfg :: args) attempt failed.
Proof.
  induction failed as [|n IH]; intros attempt st HB Ha Hle Hfail.
  - exists []. rewrite Z.add_0_r, after_nil. now split.
  - destruct (Hfail 0%nat ltac:(lia)) as [lines [rc [E N]]].
    rewrite Nat.add_0_r in E.
    rewrite py_range_cons by lia.
    rewrite (retry_loop_retries env cfg args attempt _ st
               (Exn RuntimeError (exit_message rc)));
      [|rewrite E; now apply failed_exit|reflexivity|nia].
    rewrite E. cbn [exn_msg].
    set (evs1 := attempt_banner cfg attempt :: _).
    destruct (IH (attempt + 1) (after st 1 evs1) HB ltac:(lia) ltac:(lia))
      as [evs [Hloop Hsched]].
    { intros i Hi. destruct (Hfail (S i) ltac:(lia)) as [l [r [Ei Ni]]].
      exists l, r. split; [|exact Ni]. cbn [after launches].
      now replace (launches st + 1 + i)%nat with (launches st + S i)%nat by lia. }
    exists (evs1 ++ evs)%list. split.
    + rewrite Hloop, after_after.
      replace (attempt + 1 + Z.of_nat n) with (attempt + Z.of_nat (S n)) by lia.
      reflexivity.
    + rewrite schedule_app, Hsched. subst evs1.
      autorewrite with sched.
      replace (attempt <? RETRY_COUNT cfg) with true
        by (symmetry; apply Z.ltb_lt; lia).
      reflexivity.
Qed.

(** After three failed normal attempts the fallback attempt decides. *)
Lemma download_after_exhaustion (input_link : string) (args : list string)
    (st : State) (l1 l2 l3 : list string) (r1 r2 r3 : Z) :
  RETRY_COUNT cfg = 3 -> 0 <= RETRY_DELAY_BASE cfg ->
  build_aria2_args env cfg input_link = Some args ->
  let cmd := ARIA2_PATH cfg :: args in
  let fcmd := ARIA2_PATH cfg :: fallback_args args in
  engine env (launches st) cmd = Runs l1 r1 -> r1 <> 0 ->
  engine env (launches st + 1) cmd = Runs l2 r2 -> r2 <> 0 ->
  engine env (launches st + 2) cmd = Runs l3 r3 -> r3 <> 0 ->
  exists evs,
    download_with_retries env cfg input_link st
    = (attempt_result (engine env (launches st + 3) fcmd), after st 4 evs)
    /\ schedule evs
       = [ EvSpawn cmd; EvSleep (RETRY_DELAY_BASE cfg * 1);
           EvSpawn cmd; EvSleep (RETRY_DELAY_BASE cfg * 2);
           EvSpawn cmd; EvSpawn fcmd ].
Proof.
  intros HR HB Hargs cmd fcmd E1 N1 E2 N2 E3 N3.
  unfold download_with_retries. rewrite Hargs, (py_range_budget_3 HR).
  unfold bind at 1.
  rewrite (retry_loop_exhausted args st l1 l2 l3 r1 r2 r3 HR HB E1 N1 E2 N2 E3 N3).
  unfold print_warn, print. unfold bind, emit.
  rewrite run_with_progress_spec, !after_after. cbn [after launches Nat.add].
  eexists. split; [reflexivity|].
  autorewrite with sched. rewrite HR. reflexivity.
Qed.

End RetryFacts.

(** ** The entry point *)

Section MainFacts.

Variable env : Env.
Variable cfg : Config.

Lemma is_empty_false (s : string) : s <> EmptyString -> is_empty s = false.
Proof. now destruct s. Qed.

(** Once the checks pass, the exit status is decided by the download. *)
Lemma run_after_checks (user_input : string) :
  passes_checks env cfg user_input ->
  run env cfg
  = match download_with_retries env cfg user_input
            (after init_state 0 (prelude_events env cfg)) with
    | (Ok _, st) => (0, st)
    | (Raise e, st) => (2, after st 0 [EvPrint ("[ERROR] " ++ exn_msg e)])
    | (Exit code, st) => (code, st)
    end.
Proof.
  intros [[typed [Hin Hstrip]] [Hne [Haria Hshape]]].
  unfold run, main, input, print_error, print_info, print.
  unfold bind at 1. unfold emit at 1. unfold bind at 1. unfold bind at 1.
  unfold emit at 1. rewrite Hin. unfold ret at 1. rewrite Hstrip.
  rewrite (is_empty_false _ Hne). unfold bind at 1. unfold ret at 1.
  unfold ensure_dirs, ensure_config. unfold bind at 1. unfold bind at 1.
  unfold emit at 1. unfold emit at 1. unfold bind at 1.
  rewrite Haria. cbn [negb].
  rewrite <- !orb_assoc in Hshape.
  assert (Hgate :
    negb (PyStr.startswith user_input "magnet:"
          || PyStr.startswith user_input "http://"
          || PyStr.startswith user_input "https://")
    && negb (path_exists env user_input) = false).
  { rewrite <- negb_orb, <- !orb_assoc, Hshape. reflexivity. }
  rewrite Hgate. unfold prelude_events.
  destruct (path_exists env (DEFAULT_CONF_FILE cfg));
    unfold print_info, print, bind, emit, ret, try_except, sys_exit;
    rewrite !after_after; cbn [Nat.add app is_Exception];
    destruct (download_with_retries env cfg user_input _) as [[u|e|c] st];
    reflexivity.
Qed.

End MainFacts.

(** ** Retry scenarios *)

(** C1. With a budget of three attempts and a delay base of five seconds,
    three normal attempts that exit non-zero followed by a fallback attempt
    that exits zero make [download_with_retries] return normally, after
    exactly four launches and exactly two sleeps: five seconds after the
    first attempt, ten after the second, none after the third. *)
Theorem three_failures_then_fallback_success
    (env : Env) (cfg : Config) (input_link : string) (args : list string)
    (st : State) (l1 l2 l3 l4 : list string) (r1 r2 r3 : Z) :
  RETRY_COUNT cfg = 3 -> RETRY_DELAY_BASE cfg = 5 ->
  build_aria2_args env cfg input_link = Some args ->
  let cmd := ARIA2_PATH cfg :: args in
  let fcmd := ARIA2_PATH cfg :: fallback_args args in
  engine env (launches st) cmd = Runs l1 r1 -> r1 <> 0 ->
  engine env (launches st + 1) cmd = Runs l2 r2 -> r2 <> 0 ->
  engine env (launches st + 2) cmd = Runs l3 r3 -> r3 <> 0 ->
  engine env (launches st + 3) fcmd = Runs l4 0 ->
  exists evs,
    download_with_retries env cfg input_link st = (Ok tt, after st 4 evs)
    /\ schedule evs
       = [ EvSpawn cmd; EvSleep 5; EvSpawn cmd; EvSleep 10; EvSpawn cmd;
           EvSpawn fcmd ]
    /\ List.length (spawned evs) = 4%nat
    /\ slept evs = [5; 10].
Proof.
  intros HR HB Hargs cmd fcmd E1 N1 E2 N2 E3 N3 E4.
  destruct (download_after_exhaustion env cfg input_link args st l1 l2 l3 r1 r2 r3)
    as [evs [Hrun Hsched]]; try assumption; [lia|].
  fold cmd fcmd in Hsched, Hrun. rewrite E4 in Hrun. rewrite HB in Hsched.
  exists evs. split; [exact Hrun|]. split; [exact Hsched|].
  rewrite <- spawned_schedule, <- slept_schedule, Hsched. split; reflexivity.
Qed.

Lemma three_failures_then_fallback_success_witness :
  exists evs,
    download_with_retries (demo_env demo_magnet [] [] (failing_first 3))
      demo_config demo_magnet init_state
    = (Ok tt, after init_state 4 evs)
    /\ schedule evs
       = [ EvSpawn (ARIA2_PATH demo_config :: base_args demo_config ++ [demo_magnet]);
           EvSleep 5;
           EvSpawn (ARIA2_PATH demo_config :: base_args demo_config ++ [demo_magnet]);
           EvSleep 10;
           EvSpawn (ARIA2_PATH demo_config :: base_args demo_config ++ [demo_magnet]);
           EvSpawn (ARIA2_PATH demo_config
                    :: fallback_args (base_args demo_config ++ [demo_magnet])) ]
    /\ List.length (spawned evs) = 4%nat
    /\ slept evs = [5; 10].
Proof.
  apply (three_failures_then_fallback_success
           (demo_env demo_magnet [] [] (failing_first 3)) demo_config demo_magnet
           (base_args demo_config ++ [demo_magnet]) init_state
           ["[#abc1 1.2MiB/10MiB(12%) CN:3 ...]"] ["[#abc1 1.2MiB/10MiB(12%) CN:3 ...]"]
           ["[#abc1 1.2MiB/10MiB(12%) CN:3 ...]"] ["[#abc1 1.2MiB/10MiB(12%) CN:3 ...]"]
           1 1 1);
    try reflexivity; discriminate.
Defined.

(** C2. When the three normal attempts and the fallback attempt all exit
    non-zero, the download ends with the fallback attempt's own failure:
    four launches, the fallback launch last with nothing retried after it,
    its exit message printed as the final error, and exit status 2. *)
Theorem every_attempt_fails
    (env : Env) (cfg : Config) (user_input : string) (args : list string)
    (l1 l2 l3 l4 : list string) (r1 r2 r3 r4 : Z) :
  passes_checks env cfg user_input ->
  RETRY_COUNT cfg = 3 -> 0 <= RETRY_DELAY_BASE cfg ->
  build_aria2_args env cfg user_input = Some args ->
  let cmd := ARIA2_PATH cfg :: args in
  let fcmd := ARIA2_PATH cfg :: fallback_args args in
  engine env 0 cmd = Runs l1 r1 -> r1 <> 0 ->
  engine env 1 cmd = Runs l2 r2 -> r2 <> 0 ->
  engine env 2 cmd = Runs l3 r3 -> r3 <> 0 ->
  engine env 3 fcmd = Runs l4 r4 -> r4 <> 0 ->
  let st0 := after init_state 0 (prelude_events env cfg) in
  let reason := "aria2c exited with status " ++ PyStr.str_of_int r4 in
  exists evs,
    download_with_retries env cfg user_input st0
    = (Raise (Exn RuntimeError reason), after st0 4 evs)
    /\ run env cfg = (2, after st0 4 (evs ++ [EvPrint ("[ERROR] " ++ reason)]))
    /\ spawned evs = [cmd; cmd; cmd; fcmd]
    /\ schedule (evs ++ [EvPrint ("[ERROR] " ++ reason)])
       = [ EvSpawn cmd; EvSleep (RETRY_DELAY_BASE cfg * 1);
           EvSpawn cmd; EvSleep (RETRY_DELAY_BASE cfg * 2);
           EvSpawn cmd; EvSpawn fcmd ].
Proof.
  intros Hchk HR HB Hargs cmd fcmd E1 N1 E2 N2 E3 N3 E4 N4 st0 reason.
  destruct (download_after_exhaustion env cfg user_input args st0 l1 l2 l3 r1 r2 r3)
    as [evs [Hrun Hsched]]; try assumption.
  fold cmd fcmd in Hsched, Hrun.
  change (launches st0 + 3)%nat with 3%nat in Hrun.
  rewrite E4, (failed_exit l4 r4 N4) in Hrun.
  exists evs. split; [exact Hrun|]. split; [|split].
  - rewrite (run_after_checks env cfg user_input Hchk). fold st0. rewrite Hrun.
    now rewrite after_after.
  - now rewrite <- spawned_schedule, Hsched.
  - now rewrite schedule_app, Hsched.
Qed.

Lemma demo_passes_checks (engine : nat -> list string -> outcome) :
  passes_checks (demo_machine engine) demo_config demo_magnet.
Proof.
  split; [exists demo_magnet; split; reflexivity|].
  split; [discriminate|]. split; reflexivity.
Defined.

Lemma every_attempt_fails_witness :
  exists evs,
    run (demo_machine (failing_first 4)) demo_config
    = (2, after (after init_state 0
                   (prelude_events (demo_machine (failing_first 4)) demo_config))
            4 (evs ++ [EvPrint "[ERROR] aria2c exited with status 1"]))
    /\ spawned evs
       = [ ARIA2_PATH demo_config :: demo_args; ARIA2_PATH demo_config :: demo_args;
           ARIA2_PATH demo_config :: demo_args;
           ARIA2_PATH demo_config :: fallback_args demo_args ].
Proof.
  destruct (every_attempt_fails (demo_machine (failing_first 4)) demo_config
              demo_magnet demo_args
              ["[#abc1 1.2MiB/10MiB(12%) CN:3 ...]"] ["[#abc1 1.2MiB/10MiB(12%) CN:3 ...]"]
              ["[#abc1 1.2MiB/10MiB(12%) CN:3 ...]"] ["[#abc1 1.2MiB/10MiB(12%) CN:3 ...]"]
              1 1 1 1 (demo_passes_checks _))
    as [evs [_ [Hrun [Hsp _]]]];
    try reflexivity; try discriminate.
  exists evs. split; [exact Hrun|exact Hsp].
Defined.

Lemma spawned_backoff_schedule (cfg : Config) (cmd : list string) (failed : nat) :
  forall attempt, spawned (backoff_schedule cfg cmd attempt failed) = repeat cmd failed.
Proof.
  induction failed as [|n IH]; intros attempt; [reflexivity|].
  cbn [backoff_schedule repeat]. cbn [spawned flat_map app].
  f_equal. apply IH.
Qed.

Lemma spawned_app (a b : list event) :
  spawned (a ++ b) = (spawned a ++ spawned b)%list.
Proof. apply flat_map_app. Qed.

Lemma fallback_args_longer (args : list string) :
  List.length (fallback_args args) = (List.length args + 5)%nat.
Proof. unfold fallback_args. now rewrite length_app. Qed.

Lemma fallback_args_differ (args : list string) : fallback_args args <> args.
Proof.
  intros H. apply (f_equal (@List.length string)) in H.
  rewrite fallback_args_longer in H. lia.
Qed.

(** C10. Only an exception of class [RuntimeError] is retried.  When the
    attempts before attempt [failed + 1] exited non-zero and that attempt
    raises anything else (the spawn fails, reading the output fails), the
    exception leaves the loop at once: no sleep follows it, no further
    attempt and no fallback attempt is launched, its text is printed as the
    error and the exit status is 2. *)
Theorem other_exceptions_skip_retry
    (env : Env) (cfg : Config) (user_input : string) (args : list string)
    (failed : nat) (e : exn) :
  passes_checks env cfg user_input ->
  0 <= RETRY_DELAY_BASE cfg ->
  build_aria2_args env cfg user_input = Some args ->
  let cmd := ARIA2_PATH cfg :: args in
  let fcmd := ARIA2_PATH cfg :: fallback_args args in
  Z.of_nat failed < RETRY_COUNT cfg ->
  (forall i, (i < failed)%nat ->
             exists lines rc, engine env i cmd = Runs lines rc /\ rc <> 0) ->
  attempt_result (engine env failed cmd) = Raise e ->
  is_RuntimeError e = false ->
  let st0 := after init_state 0 (prelude_events env cfg) in
  exists evs,
    download_with_retries env cfg user_input st0
    = (Raise e, after st0 (S failed) evs)
    /\ run env cfg
       = (2, after st0 (S failed) (evs ++ [EvPrint ("[ERROR] " ++ exn_msg e)]))
    /\ schedule evs = (backoff_schedule cfg cmd 1 failed ++ [EvSpawn cmd])%list
    /\ spawned evs = repeat cmd (S failed)
    /\ ~ In fcmd (spawned evs).
Proof.
  intros Hchk HB Hargs cmd fcmd Hk Hprev Hres Hcls st0.
  destruct (retry_loop_prefix env cfg args failed 1 st0 HB ltac:(lia) ltac:(lia))
    as [evs [Hloop Hsched]].
  { intros i Hi. exact (Hprev i Hi). }
  rewrite (py_range_cons (1 + Z.of_nat failed)) in Hloop by lia.
  rewrite (retry_loop_propagates env cfg args _ _ _ e) in Hloop;
    [|exact Hres|exact Hcls].
  rewrite after_after in Hloop.
  change (launches (after st0 failed evs)) with failed in Hloop.
  set (o := engine env failed (ARIA2_PATH cfg :: args)) in *.
  set (evs' := (evs ++ attempt_banner cfg (1 + Z.of_nat failed)
                        :: attempt_events cfg args o)%list) in *.
  assert (Hs : schedule evs' = (backoff_schedule cfg cmd 1 failed ++ [EvSpawn cmd])%list).
  { subst evs'. rewrite schedule_app, Hsched. now autorewrite with sched. }
  assert (Hsp : spawned evs' = repeat cmd (S failed)).
  { rewrite <- spawned_schedule, Hs, spawned_app, spawned_backoff_schedule.
    cbn [spawned flat_map app]. now rewrite <- repeat_cons. }
  assert (Hrun : download_with_retries env cfg user_input st0
                 = (Raise e, after st0 (S failed) evs')).
  { unfold download_with_retries. rewrite Hargs. unfold bind at 1.
    rewrite Hloop. now rewrite Nat.add_1_r. }
  exists evs'. repeat split; try assumption.
  - rewrite (run_after_checks env cfg user_input Hchk). fold st0. rewrite Hrun.
    rewrite after_after. now rewrite Nat.add_0_r.
  - rewrite Hsp. intros Hin. apply repeat_spec in Hin.
    injection Hin as Hin. now apply fallback_args_differ in Hin.
Qed.

Lemma other_exceptions_skip_retry_witness :
  exists evs,
    run (demo_machine (spawn_fails_after 1 (Exn PermissionError "[WinError 5] Access is denied")))
        demo_config
    = (2, after (after init_state 0
                   (prelude_events
                      (demo_machine
                         (spawn_fails_after 1
                            (Exn PermissionError "[WinError 5] Access is denied")))
                      demo_config))
            2 (evs ++ [EvPrint "[ERROR] [WinError 5] Access is denied"]))
    /\ schedule evs
       = [ EvSpawn (ARIA2_PATH demo_config :: demo_args); EvSleep 5;
           EvSpawn (ARIA2_PATH demo_config :: demo_args) ].
Proof.
  destruct (other_exceptions_skip_retry
              (demo_machine (spawn_fails_after 1
                               (Exn PermissionError "[WinError 5] Access is denied")))
              demo_config demo_magnet demo_args 1
              (Exn PermissionError "[WinError 5] Access is denied")
              (demo_passes_checks _))
    as [evs [_ [Hrun [Hsched _]]]].
  - cbn. lia.
  - reflexivity.
  - cbn. lia.
  - intros i Hi. exists [], 1. split; [|discriminate].
    destruct i as [|i]; [reflexivity|lia].
  - reflexivity.
  - reflexivity.
  - exists evs. split; [exact Hrun|exact Hsched].
Defined.

(** ** Classification and argument lists *)

Section ArgumentFacts.

Lemma firstn_length_app {A : Type} (a b : list A) :
  firstn (List.length a) (a ++ b) = a.
Proof. induction a as [|x r IH]; [reflexivity|]. cbn. now rewrite IH. Qed.

Lemma skipn_length_app {A : Type} (a b : list A) :
  skipn (List.length a) (a ++ b) = b.
Proof. induction a as [|x r IH]; [reflexivity|]. exact IH. Qed.

Lemma last_of_app_single {A : Type} (a : list A) (x : A) :
  last_of (a ++ [x]) = Some x.
Proof.
  induction a as [|y r IH]; [reflexivity|].
  cbn [app last_of]. rewrite IH. now destruct (r ++ [x])%list.
Qed.

(** The script's one function is the classifier followed by the builder. *)
Lemma build_aria2_args_refines (env : Env) (cfg : Config) (raw : string) :
  build_aria2_args env cfg raw
  = option_map (fun spec => build spec cfg Normal) (classify env raw).
Proof.
  unfold build_aria2_args, classify, build.
  destruct (PyStr.startswith raw "magnet:");
    [cbn [option_map]; now rewrite app_nil_r|].
  destruct (PyStr.startswith raw "http://" || PyStr.startswith raw "https://");
    [cbn [option_map]; now rewrite app_nil_r|].
  destruct (path_is_file env raw); [|reflexivity].
  cbn [option_map]. now rewrite app_nil_r.
Qed.

Lemma fallback_args_build (spec : LaunchSpec) (cfg : Config) :
  fallback_args (build spec cfg Normal) = build spec cfg Fallback.
Proof.
  unfold fallback_args, build, hardening_flags.
  now rewrite app_nil_r, <- !app_assoc.
Qed.

Lemma script_args_build (env : Env) (cfg : Config) (profile : Profile)
    (raw : string) (spec : LaunchSpec) :
  classify env raw = Some spec ->
  script_args env cfg profile raw = Some (build spec cfg profile).
Proof.
  intros H. unfold script_args. rewrite build_aria2_args_refines, H.
  destruct profile; cbn [option_map]; [reflexivity|].
  now rewrite fallback_args_build.
Qed.

End ArgumentFacts.

(** C3. For every launch spec and configuration the fallback argument list
    is the normal one followed by exactly the five hardening flags; and the
    lists the script passes for an input classified as that launch spec are
    these two lists. *)
Theorem fallback_extends_normal
    (env : Env) (cfg : Config) (raw : string) (spec : LaunchSpec) :
  classify env raw = Some spec ->
  let normal := build spec cfg Normal in
  let fallback := build spec cfg Fallback in
  script_args env cfg Normal raw = Some normal
  /\ script_args env cfg Fallback raw = Some fallback
  /\ fallback
     = (normal ++ [ "--bt-enable-lpd=true"; "--bt-detach-seed-only=true";
                    "--timeout=30"; "--connect-timeout=20"; "--retry-wait=10" ])%list
  /\ firstn (List.length normal) fallback = normal
  /\ skipn (List.length normal) fallback
     = [ "--bt-enable-lpd=true"; "--bt-detach-seed-only=true";
         "--timeout=30"; "--connect-timeout=20"; "--retry-wait=10" ]
  /\ List.length fallback = (List.length normal + 5)%nat
  /\ fallback <> normal.
Proof.
  intros Hc normal fallback.
  assert (Hfb : fallback = fallback_args normal)
    by (symmetry; apply fallback_args_build).
  split; [now apply script_args_build|]. split; [now apply script_args_build|].
  rewrite Hfb. unfold fallback_args.
  split; [reflexivity|]. split; [apply firstn_length_app|].
  split; [apply skipn_length_app|]. split; [now rewrite length_app|].
  apply fallback_args_differ.
Qed.

Lemma fallback_extends_normal_witness :
  script_args (demo_machine (failing_first 0)) demo_config Fallback demo_magnet
  = Some (demo_args ++ [ "--bt-enable-lpd=true"; "--bt-detach-seed-only=true";
                         "--timeout=30"; "--connect-timeout=20"; "--retry-wait=10" ])%list.
Proof.
  destruct (fallback_extends_normal (demo_machine (failing_first 0)) demo_config
              demo_magnet (Magnet demo_magnet) eq_refl)
    as [_ [Hfb [Heq _]]].
  rewrite Hfb, Heq. reflexivity.
Defined.

(** C4. The rules are tried in order.  An input starting with [magnet:] is a
    Magnet whose URI is the input itself, passed as the last argument; else
    one starting with [http://] or [https://] is a DirectURL; else one that
    is an existing regular file is a LocalDescriptor, the list ending with
    [-T] and the path; anything else is rejected.  The script's
    [build_aria2_args] is this classification followed by the builder. *)
Theorem classification_rules (env : Env) (cfg : Config) (raw : string) :
  build_aria2_args env cfg raw
  = option_map (fun spec => build spec cfg Normal) (classify env raw)
  /\ (PyStr.startswith raw "magnet:" = true ->
      classify env raw = Some (Magnet raw)
      /\ build_aria2_args env cfg raw = Some (base_args cfg ++ [raw])%list
      /\ option_map last_of (build_aria2_args env cfg raw) = Some (Some raw))
  /\ (PyStr.startswith raw "magnet:" = false ->
      PyStr.startswith raw "http://" || PyStr.startswith raw "https://" = true ->
      classify env raw = Some (DirectURL raw)
      /\ build_aria2_args env cfg raw = Some (base_args cfg ++ [raw])%list)
  /\ (PyStr.startswith raw "magnet:" = false ->
      PyStr.startswith raw "http://" || PyStr.startswith raw "https://" = false ->
      path_is_file env raw = true ->
      classify env raw = Some (LocalDescriptor (path_str env raw))
      /\ build_aria2_args env cfg raw
         = Some (base_args cfg ++ ["-T"; path_str env raw])%list)
  /\ (PyStr.startswith raw "magnet:" = false ->
      PyStr.startswith raw "http://" || PyStr.startswith raw "https://" = false ->
      path_is_file env raw = false ->
      classify env raw = None /\ build_aria2_args env cfg raw = None).
Proof.
  split; [apply build_aria2_args_refines|].
  unfold classify, build_aria2_args.
  split; [intros ->; cbn [option_map]; now rewrite last_of_app_single|].
  split; [now intros -> ->|].
  split; now intros -> -> ->.
Qed.

Lemma classification_rules_witness :
  classify (demo_machine (failing_first 0)) demo_magnet = Some (Magnet demo_magnet)
  /\ classify (demo_env "a.torrent" ["a.torrent"] ["a.torrent"] (failing_first 0))
              "a.torrent"
     = Some (LocalDescriptor "a.torrent")
  /\ classify (demo_env "a.torrent" [] [] (failing_first 0)) "a.torrent" = None.
Proof.
  split; [|split].
  - destruct (classification_rules (demo_machine (failing_first 0)) demo_config
                demo_magnet) as [_ [Hmagnet _]].
    exact (proj1 (Hmagnet eq_refl)).
  - destruct (classification_rules
                (demo_env "a.torrent" ["a.torrent"] ["a.torrent"] (failing_first 0))
                demo_config "a.torrent") as [_ [_ [_ [Hfile _]]]].
    exact (proj1 (Hfile eq_refl eq_refl eq_refl)).
  - destruct (classification_rules (demo_env "a.torrent" [] [] (failing_first 0))
                demo_config "a.torrent") as [_ [_ [_ [_ Hnone]]]].
    exact (proj1 (Hnone eq_refl eq_refl eq_refl)).
Defined.

(** C8. The argument list depends on nothing but the launch spec, the
    configuration and the profile: two calls on inputs classified alike,
    on any two machines, give the same list, element for element. *)
Theorem argument_builder_pure
    (env1 env2 : Env) (cfg : Config) (profile : Profile) (raw1 raw2 : string)
    (spec : LaunchSpec) :
  classify env1 raw1 = Some spec ->
  classify env2 raw2 = Some spec ->
  script_args env1 cfg profile raw1 = script_args env2 cfg profile raw2
  /\ script_args env1 cfg profile raw1 = Some (build spec cfg profile).
Proof.
  intros H1 H2.
  now rewrite (script_args_build env1 cfg profile raw1 spec H1),
              (script_args_build env2 cfg profile raw2 spec H2).
Qed.

Lemma argument_builder_pure_witness :
  script_args (demo_machine (failing_first 0)) demo_config Fallback demo_magnet
  = script_args (demo_env "" [] [] (failing_first 4)) demo_config Fallback demo_magnet.
Proof.
  apply (argument_builder_pure (demo_machine (failing_first 0))
           (demo_env "" [] [] (failing_first 4)) demo_config Fallback
           demo_magnet demo_magnet (Magnet demo_magnet)); reflexivity.
Defined.

(** ** The progress tracker *)

Lemma extraction_rule_of_failure (raw : string) (e : exn) :
  parse_percent (PyStr.strip raw) = Raise e -> extraction_rule raw = None.
Proof.
  intros H. rewrite <- extraction_rule_strip.
  destruct (PyStr.contains "%" (PyStr.strip raw)) eqn:Hc.
  - pose proof (parse_percent_rule _ Hc) as Hr. now rewrite H in Hr.
  - unfold extraction_rule. now rewrite Hc.
Qed.

Lemma extraction_rule_no_percent (raw : string) :
  PyStr.contains "%" raw = false -> extraction_rule raw = None.
Proof. intros H. unfold extraction_rule. now rewrite H. Qed.

(** On the description's own example line the loop body extracts nothing:
    the last token before the percent sign is [1.2MiB/10MiB(12], which
    [int] rejects, so the bar keeps its value. *)
Lemma example_line_gives_no_percentage :
  parse_percent (PyStr.strip example_line)
  = Raise (Exn ValueError "invalid literal for int() with base 10")
  /\ observe 0 example_line init_state
     = (Ok 0, after init_state 0 [EvPrint example_line])
  /\ fst (observe 0 example_line init_state) <> Ok 12.
Proof. repeat split; try reflexivity. discriminate. Qed.

(** The loop body follows the extraction rule on every line: the text
    before the first percent sign is split on white space and the last token
    is parsed as an integer; where that succeeds the bar is set to the
    integer and refreshed, otherwise the bar is left alone; the (stripped)
    line is printed either way.  A line without a percent sign gives
    nothing, a line whose last token before the sign is [12] gives 12, and
    the example line of the description gives nothing. *)
Theorem progress_extraction_rule (n : Z) (raw : string) (st : State) :
  observe n raw st
  = (Ok (match extraction_rule raw with Some p => p | None => n end),
     after st 0 (match extraction_rule raw with
                 | Some p => [EvBarRefresh p]
                 | None => []
                 end ++ [EvPrint (PyStr.strip raw)]))
  /\ (PyStr.contains "%" raw = false -> extraction_rule raw = None)
  /\ extraction_rule "[#abc1 1.2MiB/10MiB 12% CN:3 ...]" = Some 12
  /\ extraction_rule example_line = None
  /\ last_of (PyStr.split (before_first "%" example_line)) = Some "1.2MiB/10MiB(12".
Proof.
  split; [apply observe_spec|].
  split; [apply extraction_rule_no_percent|].
  repeat split; reflexivity.
Qed.

Lemma progress_extraction_rule_witness :
  extraction_rule "Download complete" = None.
Proof.
  exact (proj1 (proj2 (progress_extraction_rule 0 "Download complete" init_state))
           eq_refl).
Defined.

(** C7. No line makes the loop body raise, and none ends the attempt: when
    the parse fails, whether on a non-numeric token as in [weird%text] or on
    a missing token as in a line that starts with the percent sign, the bar
    keeps its value and the line is printed; the loop over any output
    finishes; and how the attempt ends depends on the exit status alone. *)
Theorem malformed_lines_never_abort (n : Z) (raw : string) (st : State) :
  (exists n', fst (observe n raw st) = Ok n')
  /\ (forall e, parse_percent (PyStr.strip raw) = Raise e ->
                observe n raw st = (Ok n, after st 0 [EvPrint (PyStr.strip raw)]))
  /\ (forall lines, exists n', fst (consume n lines st) = Ok n')
  /\ (forall env cfg args lines returncode,
        engine env (launches st) (ARIA2_PATH cfg :: args) = Runs lines returncode ->
        fst (run_with_progress env cfg args st)
        = if returncode =? 0 then Ok tt
          else Raise (Exn RuntimeError
                        ("aria2c exited with status " ++ PyStr.str_of_int returncode)))
  /\ parse_percent "weird%text"
     = Raise (Exn ValueError "invalid literal for int() with base 10")
  /\ parse_percent "% done" = Raise (Exn IndexError "list index out of range").
Proof.
  split; [rewrite observe_spec; now eexists|].
  split.
  { intros e He. rewrite observe_spec. unfold refresh_of.
    now rewrite (extraction_rule_of_failure raw e He). }
  split; [intros lines; rewrite consume_spec; now eexists|].
  split; [|split; reflexivity].
  intros env cfg args lines rc E.
  rewrite run_with_progress_spec, E. reflexivity.
Qed.

Lemma malformed_lines_never_abort_witness :
  observe 40 "weird%text" init_state = (Ok 40, after init_state 0 [EvPrint "weird%text"])
  /\ observe 40 "% done" init_state = (Ok 40, after init_state 0 [EvPrint "% done"]).
Proof.
  split.
  - exact (proj1 (proj2 (malformed_lines_never_abort 40 "weird%text" init_state))
             (Exn ValueError "invalid literal for int() with base 10") eq_refl).
  - exact (proj1 (proj2 (malformed_lines_never_abort 40 "% done" init_state))
             (Exn IndexError "list index out of range") eq_refl).
Defined.

Lemma accepted_app (a b : list string) :
  accepted (a ++ b) = (accepted a ++ accepted b)%list.
Proof. apply flat_map_app. Qed.

Lemma last_in_range (l : list Z) (d lo hi : Z) :
  lo <= d <= hi -> Forall (fun p => lo <= p <= hi) l -> lo <= last l d <= hi.
Proof.
  intros Hd H. induction H as [|p r Hp Hr IH]; [exact Hd|].
  destruct r as [|q r']; [exact Hp|exact IH].
Qed.

(** C9, as the script has it.  A line reading [150%] is accepted and the bar
    then holds 150, outside the range from 0 to 100. *)
Lemma bar_leaves_range :
  consume 0 ["150%"] init_state
  = (Ok 150, after init_state 0 [EvBarRefresh 150; EvPrint "150%"])
  /\ ~ (0 <= 150 <= 100)
  /\ fst (consume 0 ["-5%"] init_state) = Ok (-5).
Proof. repeat split; try reflexivity. lia. Qed.

(** C9, amended.  The bar of an attempt starts at 0, whatever happened
    before; after any part of the output it holds the last integer parsed so
    far, unchanged, or 0 when there was none; it need not grow; and it is
    within 0 to 100 throughout the attempt when every integer parsed from
    the attempt's lines is. *)
Theorem bar_tracks_last_accepted
    (env : Env) (cfg : Config) (args : list string) (st : State)
    (lines : list string) (returncode : Z) :
  engine env (launches st) (ARIA2_PATH cfg :: args) = Runs lines returncode ->
  (exists before rest,
      snd (run_with_progress env cfg args st)
      = after st 1 (before ++ EvBarOpen 0 100 :: line_events lines
                    ++ EvWait :: EvBarClose (last (accepted lines) 0) :: rest))
  /\ (forall k, fst (consume 0 (firstn k lines) st)
                = Ok (last (accepted (firstn k lines)) 0))
  /\ (Forall (fun p => 0 <= p <= 100) (accepted lines) ->
      forall k, 0 <= last (accepted (firstn k lines)) 0 <= 100)
  /\ fst (consume 0 ["50%"; "20%"] st) = Ok 20.
Proof.
  intros E. split; [|split; [|split]].
  - rewrite run_with_progress_spec, E. unfold attempt_events, bar_value.
    cbn [snd]. eexists [_; _], _. cbn [app]. reflexivity.
  - intros k. now rewrite consume_spec.
  - intros Hall k. apply last_in_range; [lia|].
    rewrite <- (firstn_skipn k lines), accepted_app in Hall.
    now apply Forall_app in Hall.
  - now rewrite consume_spec.
Qed.

Lemma bar_tracks_last_accepted_witness :
  0 <= last (accepted (firstn 3 ["10%"; "x"; "55%"; "100%"])) 0 <= 100.
Proof.
  destruct (bar_tracks_last_accepted
              (demo_machine (fun _ _ => Runs ["10%"; "x"; "55%"; "100%"] 0))
              demo_config demo_args init_state ["10%"; "x"; "55%"; "100%"] 0 eq_refl)
    as [_ [_ [Hrange _]]].
  apply (Hrange ltac:(repeat constructor; cbv; discriminate) 3%nat).
Defined.

(** ** Exit status *)

Section ExitFacts.

Variable env : Env.
Variable cfg : Config.

(** A whole budget of failed attempts, whatever its size: the last one is
    not followed by a sleep, and the loop ends without having returned. *)
Lemma retry_loop_budget_exhausted (args : list string) (n : nat) (st : State) :
  Z.of_nat n = RETRY_COUNT cfg -> (1 <= n)%nat -> 0 <= RETRY_DELAY_BASE cfg ->
  (forall i, (i < n)%nat ->
             exists lines rc,
               engine env (launches st + i) (ARIA2_PATH cfg :: args) = Runs lines rc
               /\ rc <> 0) ->
  exists evs,
    retry_loop env cfg args (py_range 1 (RETRY_COUNT cfg + 1)) st
    = (Ok false, after st n evs)
    /\ schedule evs
       = (backoff_schedule cfg (ARIA2_PATH cfg :: args) 1 (n - 1)
          ++ [EvSpawn (ARIA2_PATH cfg :: args)])%list.
Proof.
  intros HR Hn HB Hfail.
  destruct (retry_loop_prefix env cfg args (n - 1) 1 st HB ltac:(lia) ltac:(lia))
    as [evs [Hloop Hsched]].
  { intros i Hi. apply Hfail. lia. }
  destruct (Hfail (n - 1)%nat ltac:(lia)) as [lines [rc [E N]]].
  replace (1 + Z.of_nat (n - 1)) with (RETRY_COUNT cfg) in Hloop by lia.
  rewrite (py_range_cons (RETRY_COUNT cfg)) in Hloop by lia.
  rewrite (retry_loop_retries env cfg args _ _ _ (Exn RuntimeError (exit_message rc)))
    in Hloop;
    [|cbn [after launches]; rewrite E; now apply failed_exit|reflexivity|nia].
  cbn [after launches] in Hloop. rewrite E in Hloop.
  fold (after st (n - 1) evs) in Hloop. rewrite after_after in Hloop.
  replace (py_range (RETRY_COUNT cfg + 1) (RETRY_COUNT cfg + 1)) with (@nil Z) in Hloop
    by (unfold py_range; now rewrite Z.sub_diag).
  cbn [retry_loop] in Hloop. unfold ret in Hloop.
  replace (n - 1 + 1)%nat with n in Hloop by lia.
  eexists. split; [exact Hloop|].
  rewrite schedule_app, Hsched. autorewrite with sched.
  now rewrite Z.ltb_irrefl, app_nil_r.
Qed.

(** The status of the whole download when the budget is used up: that of
    the fallback attempt. *)
Lemma download_after_budget (input_link : string) (args : list string)
    (n : nat) (st : State) :
  Z.of_nat n = RETRY_COUNT cfg -> (1 <= n)%nat -> 0 <= RETRY_DELAY_BASE cfg ->
  build_aria2_args env cfg input_link = Some args ->
  (forall i, (i < n)%nat ->
             exists lines rc,
               engine env (launches st + i) (ARIA2_PATH cfg :: args) = Runs lines rc
               /\ rc <> 0) ->
  exists evs,
    download_with_retries env cfg input_link st
    = (attempt_result
         (engine env (launches st + n) (ARIA2_PATH cfg :: fallback_args args)),
       after st (S n) evs).
Proof.
  intros HR Hn HB Hargs Hfail.
  destruct (retry_loop_budget_exhausted args n st HR Hn HB Hfail) as [evs [Hloop _]].
  unfold download_with_retries. rewrite Hargs. unfold bind at 1. rewrite Hloop.
  unfold print_warn, print, bind, emit.
  rewrite run_with_progress_spec, !after_after. cbn [after launches].
  rewrite !Nat.add_0_r, Nat.add_1_r. now eexists.
Qed.

(** The status of the whole download when an attempt within the budget
    exits with zero after [failed] failed ones. *)
Lemma download_returns_within_budget (input_link : string) (args : list string)
    (failed : nat) (st : State) :
  Z.of_nat failed < RETRY_COUNT cfg -> 0 <= RETRY_DELAY_BASE cfg ->
  build_aria2_args env cfg input_link = Some args ->
  (forall i, (i < failed)%nat ->
             exists lines rc,
               engine env (launches st + i) (ARIA2_PATH cfg :: args) = Runs lines rc
               /\ rc <> 0) ->
  attempt_result (engine env (launches st + failed) (ARIA2_PATH cfg :: args)) = Ok tt ->
  exists evs,
    download_with_retries env cfg input_link st = (Ok tt, after st (S failed) evs).
Proof.
  intros Hk HB Hargs Hfail Hok.
  destruct (retry_loop_prefix env cfg args failed 1 st HB ltac:(lia) ltac:(lia) Hfail)
    as [evs [Hloop _]].
  rewrite (py_range_cons (1 + Z.of_nat failed)) in Hloop by lia.
  rewrite retry_loop_returns in Hloop by exact Hok.
  rewrite after_after in Hloop.
  unfold download_with_retries. rewrite Hargs. unfold bind at 1. rewrite Hloop.
  unfold ret. rewrite Nat.add_1_r. now eexists.
Qed.

Lemma run_empty_input (typed : string) :
  stdin_line env = Some typed -> PyStr.strip typed = EmptyString ->
  fst (run env cfg) = 1.
Proof.
  intros Hin Hstrip.
  unfold run, main, input, print_error, print.
  unfold bind at 1. unfold emit at 1. unfold bind at 1. unfold bind at 1.
  unfold emit at 1. rewrite Hin. unfold ret at 1. rewrite Hstrip.
  reflexivity.
Qed.

Lemma run_missing_engine (typed : string) :
  stdin_line env = Some typed -> PyStr.strip typed <> EmptyString ->
  path_exists env (ARIA2_PATH cfg) = false ->
  fst (run env cfg) = 1.
Proof.
  intros Hin Hne Haria.
  unfold run, main, input, print_error, print.
  unfold bind at 1. unfold emit at 1. unfold bind at 1. unfold bind at 1.
  unfold emit at 1. rewrite Hin. unfold ret at 1.
  rewrite (is_empty_false _ Hne). unfold bind at 1. unfold ret at 1.
  unfold ensure_dirs, ensure_config. unfold bind at 1. unfold bind at 1.
  unfold emit at 1. unfold emit at 1. unfold bind at 1.
  rewrite Haria. cbn [negb].
  destruct (path_exists env (DEFAULT_CONF_FILE cfg)); reflexivity.
Qed.

Lemma run_missing_path (typed : string) :
  stdin_line env = Some typed -> PyStr.strip typed <> EmptyString ->
  path_exists env (ARIA2_PATH cfg) = true ->
  is_uri (PyStr.strip typed) = false ->
  path_exists env (PyStr.strip typed) = false ->
  fst (run env cfg) = 1.
Proof.
  intros Hin Hne Haria Huri Hpath.
  unfold run, main, input, print_error, print_info, print.
  unfold bind at 1. unfold emit at 1. unfold bind at 1. unfold bind at 1.
  unfold emit at 1. rewrite Hin. unfold ret at 1.
  rewrite (is_empty_false _ Hne). unfold bind at 1. unfold ret at 1.
  unfold ensure_dirs, ensure_config. unfold bind at 1. unfold bind at 1.
  unfold emit at 1. unfold emit at 1. unfold bind at 1.
  rewrite Haria. cbn [negb]. unfold is_uri in Huri. rewrite Huri, Hpath.
  destruct (path_exists env (DEFAULT_CONF_FILE cfg)); reflexivity.
Qed.

Lemma run_invalid_input (user_input : string) :
  passes_checks env cfg user_input ->
  build_aria2_args env cfg user_input = None ->
  run env cfg
  = (2, after init_state 0
          (prelude_events env cfg
           ++ [EvPrint "[ERROR] Invalid input. Must be magnet link, torrent URL, or local .torrent file path."])).
Proof.
  intros Hchk Hnone. rewrite (run_after_checks env cfg user_input Hchk).
  unfold download_with_retries. rewrite Hnone. unfold raise.
  now rewrite after_after.
Qed.

End ExitFacts.

(** C6, as the script has it.  The name of an existing directory has none
    of the three accepted shapes, yet it passes the existence check of
    [main]; it is then rejected inside [download_with_retries], no process
    is started, and the exit status is 2, not 1. *)
Lemma directory_input_exits_with_2 :
  classify directory_machine "C:/Users/u" = None
  /\ build_aria2_args directory_machine demo_config "C:/Users/u" = None
  /\ fst (run directory_machine demo_config) = 2
  /\ fst (run directory_machine demo_config) <> 1
  /\ launches (snd (run directory_machine demo_config)) = 0%nat.
Proof. repeat split; try reflexivity. discriminate. Qed.

(** C6, amended.  The exit status is 1 when nothing but white space was
    typed, when the engine's executable is missing, or when the input has no
    URI prefix and names no existing path; past these checks it is 2 when
    the input is rejected as invalid (an existing path that is not a regular
    file) or when every attempt of the budget and the fallback attempt exit
    non-zero, and 0 when an attempt of the budget or the fallback attempt
    exits with zero. *)
Theorem exit_status_cases (env : Env) (cfg : Config) (typed : string) :
  stdin_line env = Some typed ->
  let user_input := PyStr.strip typed in
  let cmd args := ARIA2_PATH cfg :: args in
  let failures args n :=
    forall i, (i < n)%nat ->
              exists lines rc, engine env i (cmd args) = Runs lines rc /\ rc <> 0 in
  (user_input = EmptyString
   \/ path_exists env (ARIA2_PATH cfg) = false
   \/ (is_uri user_input = false /\ path_exists env user_input = false) ->
   fst (run env cfg) = 1)
  /\ (passes_checks env cfg user_input ->
      0 <= RETRY_DELAY_BASE cfg ->
      (build_aria2_args env cfg user_input = None -> fst (run env cfg) = 2)
      /\ (forall args failed,
            build_aria2_args env cfg user_input = Some args ->
            Z.of_nat failed < RETRY_COUNT cfg -> failures args failed ->
            attempt_result (engine env failed (cmd args)) = Ok tt ->
            fst (run env cfg) = 0)
      /\ (forall args n lines rc,
            build_aria2_args env cfg user_input = Some args ->
            Z.of_nat n = RETRY_COUNT cfg -> (1 <= n)%nat -> failures args n ->
            engine env n (cmd (fallback_args args)) = Runs lines rc ->
            fst (run env cfg) = if rc =? 0 then 0 else 2)).
Proof.
  intros Hin user_input cmd failures. split.
  - intros Hpre.
    destruct (string_dec user_input EmptyString) as [Hempty|Hne];
      [exact (run_empty_input env cfg typed Hin Hempty)|].
    destruct (path_exists env (ARIA2_PATH cfg)) eqn:Haria;
      [|exact (run_missing_engine env cfg typed Hin Hne Haria)].
    destruct Hpre as [Hempty|[Hno|[Huri Hpath]]];
      [contradiction|discriminate|].
    exact (run_missing_path env cfg typed Hin Hne Haria Huri Hpath).
  - intros Hchk HB.
    pose proof (run_after_checks env cfg user_input Hchk) as Hrun.
    set (st0 := after init_state 0 (prelude_events env cfg)) in *.
    split; [|split].
    + intros Hnone. now rewrite (run_invalid_input env cfg user_input Hchk Hnone).
    + intros args failed Hargs Hk Hfail Hok.
      destruct (download_returns_within_budget env cfg user_input args failed st0
                  Hk HB Hargs Hfail Hok) as [evs Hd].
      now rewrite Hrun, Hd.
    + intros args n lines rc Hargs HR Hn Hfail E.
      destruct (download_after_budget env cfg user_input args n st0
                  HR Hn HB Hargs Hfail) as [evs Hd].
      change (launches st0 + n)%nat with n in Hd. fold (cmd (fallback_args args)) in Hd.
      rewrite E in Hd. rewrite Hrun, Hd. cbn [attempt_result].
      now destruct (rc =? 0).
Qed.

Lemma exit_status_cases_witness :
  fst (run (demo_env "   " [ARIA2_PATH demo_config] [] (failing_first 0)) demo_config) = 1
  /\ fst (run directory_machine demo_config) = 2
  /\ fst (run (demo_machine (failing_first 2)) demo_config) = 0.
Proof.
  split; [|split].
  - apply (exit_status_cases
             (demo_env "   " [ARIA2_PATH demo_config] [] (failing_first 0))
             demo_config "   " eq_refl).
    left. reflexivity.
  - destruct (exit_status_cases directory_machine demo_config "C:/Users/u" eq_refl)
      as [_ Hpast].
    apply Hpast; [|cbn; lia|reflexivity].
    split; [exists "C:/Users/u"; split; reflexivity|].
    split; [discriminate|]. split; reflexivity.
  - destruct (exit_status_cases (demo_machine (failing_first 2)) demo_config
                demo_magnet eq_refl) as [_ Hpast].
    destruct (Hpast (demo_passes_checks _)) as [_ [Hok _]]; [cbn; lia|].
    apply (Hok demo_args 2%nat); [reflexivity|cbn; lia| |reflexivity].
    intros i Hi. exists ["[#abc1 1.2MiB/10MiB(12%) CN:3 ...]"], 1.
    split; [|discriminate].
    destruct i as [|[|i]]; [reflexivity|reflexivity|lia].
Defined.

(** ** Sanity checks of the string primitives *)

Example string_primitives_agree_with_python :
  PyStr.split "  a  bc d " = ["a"; "bc"; "d"]
  /\ PyStr.split_on "%" "a%b%%c" = ["a"; "b"; ""; "c"]
  /\ PyStr.strip "  x y  " = "x y"
  /\ PyStr.int " -1_000 " = Ok (-1000)
  /\ PyStr.int "1__0" = Raise (Exn ValueError "invalid literal for int() with base 10")
  /\ PyStr.int "12_" = Raise (Exn ValueError "invalid literal for int() with base 10")
  /\ PyStr.int "+" = Raise (Exn ValueError "invalid literal for int() with base 10")
  /\ PyStr.str_of_int 0 = "0" /\ PyStr.str_of_int (-12) = "-12"
  /\ PyStr.str_of_int 305 = "305"
  /\ PyStr.getitem [1; 2; 3] (-1) = Ok 3
  /\ PyStr.getitem (@nil Z) (-1) = Raise (Exn IndexError "list index out of range").
Proof. repeat split; reflexivity. Qed.

(** * Further properties of the script *)

(** ** The retry loop against an arbitrary engine *)

Section LoopInvariant.

Variable env : Env.
Variable cfg : Config.

Lemma retry_loop_bad_delay (args : list string) (attempt : Z) (rest : list Z)
    (st : State) (e : exn) :
  let o := engine env (launches st) (ARIA2_PATH cfg :: args) in
  attempt_result o = Raise e ->
  is_RuntimeError e = true ->
  attempt < RETRY_COUNT cfg ->
  RETRY_DELAY_BASE cfg * attempt < 0 ->
  retry_loop env cfg args (attempt :: rest) st
  = (Raise (Exn ValueError "sleep length must be non-negative"),
     after st 1 (attempt_banner cfg attempt :: attempt_events cfg args o
                 ++ [ EvPrint ("[WARN] " ++ exn_msg e);
                      EvPrint ("[INFO] Retrying in "
                               ++ PyStr.str_of_int (RETRY_DELAY_BASE cfg * attempt)
                               ++ " seconds...") ])).
Proof.
  cbv zeta. intros Hres Hcls Hlt Hneg. cbn [retry_loop].
  unfold print_info, print. unfold bind at 1. unfold emit at 1.
  unfold bind at 1. unfold try_except. unfold bind at 1.
  rewrite run_with_progress_spec. cbn [after launches].
  rewrite Nat.add_0_r, Hres, Hcls.
  unfold print_warn, print, sleep.
  apply Z.ltb_lt in Hlt, Hneg. rewrite Hlt, Hneg.
  unfold bind, emit, raise. rewrite !after_after. cbn [Nat.add app].
  now rewrite <- ?app_assoc.
Qed.

(** [retry_loop_retries] without the assumption on the delay, for an
    attempt that is not followed by a sleep. *)
Lemma retry_loop_last (args : list string) (attempt : Z) (rest : list Z)
    (st : State) (e : exn) :
  let o := engine env (launches st) (ARIA2_PATH cfg :: args) in
  attempt_result o = Raise e ->
  is_RuntimeError e = true ->
  RETRY_COUNT cfg <= attempt ->
  retry_loop env cfg args (attempt :: rest) st
  = retry_loop env cfg args rest
      (after st 1 (attempt_banner cfg attempt :: attempt_events cfg args o
                   ++ [EvPrint ("[WARN] " ++ exn_msg e)])).
Proof.
  cbv zeta. intros Hres Hcls Hge. cbn [retry_loop].
  unfold print_info, print. unfold bind at 1. unfold emit at 1.
  unfold bind at 1. unfold try_except. unfold bind at 1.
  rewrite run_with_progress_spec. cbn [after launches].
  rewrite Nat.add_0_r, Hres, Hcls.
  unfold print_warn, print.
  apply Z.ltb_ge in Hge. rewrite Hge.
  unfold bind, emit, ret. rewrite !after_after. cbn [Nat.add app].
  now rewrite <- ?app_assoc.
Qed.

Lemma attempt_result_never_exits (o : outcome) (code : Z) :
  attempt_result o <> Exit code.
Proof. destruct o as [e|l e|l rc]; cbn; try discriminate. now destruct (rc =? 0). Qed.

Lemma attempt_result_ok (o : outcome) :
  attempt_result o = Ok tt -> exists lines, o = Runs lines 0.
Proof.
  destruct o as [e|l e|l rc]; cbn; try discriminate.
  destruct (rc =? 0) eqn:E; [|discriminate].
  apply Z.eqb_eq in E. subst rc. now exists l.
Qed.

Lemma slept_app (a b : list event) : slept (a ++ b) = (slept a ++ slept b)%list.
Proof. apply flat_map_app. Qed.

Lemma slept_attempt (args : list string) (attempt : Z) (o : outcome) (tail : list event) :
  slept (attempt_banner cfg attempt :: attempt_events cfg args o ++ tail) = slept tail.
Proof.
  rewrite <- slept_schedule, schedule_banner, schedule_app, schedule_attempt_events.
  cbn [app slept flat_map]. fold (slept (schedule tail)). apply slept_schedule.
Qed.

Lemma spawned_attempt (args : list string) (attempt : Z) (o : outcome) (tail : list event) :
  spawned (attempt_banner cfg attempt :: attempt_events cfg args o ++ tail)
  = (ARIA2_PATH cfg :: args) :: spawned tail.
Proof.
  rewrite <- spawned_schedule, schedule_banner, schedule_app, schedule_attempt_events.
  cbn [app spawned flat_map]. fold (spawned (schedule tail)).
  now rewrite spawned_schedule.
Qed.

Lemma supervision_line_events (lines : list string) :
  forallb supervision_event (line_events lines) = true.
Proof.
  induction lines as [|raw rest IH]; [reflexivity|].
  unfold line_events. cbn [flat_map]. fold (line_events rest).
  rewrite !forallb_app, IH. unfold refresh_of.
  now destruct (extraction_rule raw).
Qed.

Lemma supervision_attempt (args : list string) (attempt : Z) (o : outcome) :
  forallb supervision_event (attempt_banner cfg attempt :: attempt_events cfg args o)
  = true.
Proof.
  unfold attempt_events. cbn [forallb app supervision_event attempt_banner andb].
  destruct o as [e|lines e|lines rc]; cbn [forallb supervision_event andb].
  - reflexivity.
  - apply supervision_line_events.
  - rewrite !forallb_app, supervision_line_events. now destruct (rc =? 0).
Qed.

Lemma supervision_backoff (attempt : Z) (reason : string) :
  forallb supervision_event (backoff_events cfg attempt reason) = true.
Proof. unfold backoff_events. now destruct (attempt <? RETRY_COUNT cfg). Qed.

Lemma attempt_events_completed (args : list string) (o : outcome) :
  attempt_result o = Ok tt ->
  exists front,
    attempt_events cfg args o
    = (front ++ [EvPrint "[INFO] Download completed successfully."])%list.
Proof.
  intros H. apply attempt_result_ok in H as [lines ->].
  unfold attempt_events. cbn [Z.eqb].
  eexists (_ :: _ :: _ :: line_events lines ++ [_; _])%list.
  cbn [app]. now rewrite <- app_assoc.
Qed.

(** What holds of the loop whatever the children do. *)
Lemma retry_loop_invariant (args : list string) (attempts : list Z) :
  forall st,
  exists k evs r,
    retry_loop env cfg args attempts st = (r, after st k evs)
    /\ (k <= List.length attempts)%nat
    /\ spawned evs = repeat (ARIA2_PATH cfg :: args) k
    /\ (exists m, slept evs = firstn m (backoff_delays cfg attempts))
    /\ forallb supervision_event evs = true
    /\ match r with
       | Ok true =>
           (1 <= k)%nat
           /\ attempt_result
                (engine env (launches st + (k - 1)) (ARIA2_PATH cfg :: args)) = Ok tt
           /\ exists front,
                evs = (front ++ [EvPrint "[INFO] Download completed successfully."])%list
       | Ok false => k = List.length attempts
       | Raise _ => (1 <= k)%nat
       | Exit _ => False
       end.
Proof.
  induction attempts as [|a rest IH]; intros st.
  - exists 0%nat, [], (Ok false). cbn [retry_loop]. unfold ret.
    rewrite after_nil. repeat split; try reflexivity. now exists 0%nat.
  - set (o := engine env (launches st) (ARIA2_PATH cfg :: args)).
    destruct (attempt_result o) as [[]|e|c] eqn:Hres.
    + exists 1%nat, (attempt_banner cfg a :: attempt_events cfg args o), (Ok true).
      split; [now apply retry_loop_returns|]. split; [cbn; lia|].
      split; [rewrite <- (app_nil_r (attempt_events _ _ _)); now rewrite spawned_attempt|].
      split; [exists 0%nat;
              rewrite <- (app_nil_r (attempt_events _ _ _)); now rewrite slept_attempt|].
      split; [apply supervision_attempt|].
      split; [lia|]. split; [now rewrite Nat.add_0_r|].
      destruct (attempt_events_completed args o Hres) as [front ->].
      now exists (attempt_banner cfg a :: front).
    + destruct (is_RuntimeError e) eqn:Hcls.
      2:{ exists 1%nat, (attempt_banner cfg a :: attempt_events cfg args o), (Raise e).
          split; [now apply retry_loop_propagates|]. split; [cbn; lia|].
          split; [rewrite <- (app_nil_r (attempt_events _ _ _));
                  now rewrite spawned_attempt|].
          split; [exists 0%nat;
                  rewrite <- (app_nil_r (attempt_events _ _ _)); now rewrite slept_attempt|].
          split; [apply supervision_attempt|]. lia. }
      destruct (Z.ltb_spec a (RETRY_COUNT cfg)) as [Hlt|Hge].
      * destruct (Z.ltb_spec (RETRY_DELAY_BASE cfg * a) 0) as [Hneg|Hpos].
        -- eexists 1%nat, _, _.
           split; [now apply (retry_loop_bad_delay args a rest st e)|].
           split; [cbn; lia|].
           split; [now rewrite spawned_attempt|].
           split; [exists 0%nat; now rewrite slept_attempt|].
           split; [|lia].
           rewrite app_comm_cons, forallb_app, supervision_attempt. reflexivity.
        -- set (evs1 := (attempt_banner cfg a :: attempt_events cfg args o
                         ++ backoff_events cfg a (exn_msg e))%list).
           destruct (IH (after st 1 evs1)) as [k [evs [r [Hloop [Hk [Hsp [[m Hsl] [Hsup Hr]]]]]]]].
           exists (S k), (evs1 ++ evs)%list, r.
           split.
           { rewrite (retry_loop_retries env cfg args a rest st e Hres Hcls Hpos).
             fold o evs1. rewrite Hloop, after_after. reflexivity. }
           split; [cbn [List.length]; lia|].
           split; [rewrite spawned_app, Hsp; unfold evs1; rewrite spawned_attempt;
                   rewrite <- spawned_schedule, schedule_backoff_events;
                   now destruct (a <? RETRY_COUNT cfg)|].
           split.
           { exists (S m). rewrite slept_app, Hsl. unfold evs1.
             rewrite slept_attempt, <- slept_schedule, schedule_backoff_events.
             unfold backoff_delays. cbn [filter].
             apply Z.ltb_lt in Hlt. rewrite Hlt. reflexivity. }
           split.
           { rewrite forallb_app, Hsup. unfold evs1.
             now rewrite app_comm_cons, forallb_app, supervision_attempt,
                         supervision_backoff. }
           destruct r as [[|]|e'|c']; try exact Hr; try lia.
           ++ destruct Hr as [Hk1 [Hok [front ->]]]. split; [lia|]. split.
              ** cbn [after launches] in Hok.
                 now replace (launches st + (S k - 1))%nat
                   with (launches st + 1 + (k - 1))%nat by lia.
              ** exists (evs1 ++ front)%list. now rewrite app_assoc.
           ++ cbn [List.length]. lia.
      * set (evs1 := (attempt_banner cfg a :: attempt_events cfg args o
                      ++ [EvPrint ("[WARN] " ++ exn_msg e)])%list).
        destruct (IH (after st 1 evs1)) as [k [evs [r [Hloop [Hk [Hsp [[m Hsl] [Hsup Hr]]]]]]]].
        exists (S k), (evs1 ++ evs)%list, r.
        split.
        { rewrite (retry_loop_last args a rest st e Hres Hcls Hge).
          fold o evs1. rewrite Hloop, after_after. reflexivity. }
        split; [cbn [List.length]; lia|].
        split; [rewrite spawned_app, Hsp; unfold evs1; now rewrite spawned_attempt|].
        split.
        { exists m. rewrite slept_app, Hsl. unfold evs1.
          rewrite slept_attempt. unfold backoff_delays. cbn [filter].
          apply Z.ltb_ge in Hge. rewrite Hge. reflexivity. }
        split.
        { rewrite forallb_app, Hsup. unfold evs1.
          now rewrite app_comm_cons, forallb_app, supervision_attempt. }
        destruct r as [[|]|e'|c']; try exact Hr; try lia.
        -- destruct Hr as [Hk1 [Hok [front ->]]]. split; [lia|]. split.
           ++ cbn [after launches] in Hok.
              now replace (launches st + (S k - 1))%nat
                with (launches st + 1 + (k - 1))%nat by lia.
           ++ exists (evs1 ++ front)%list. now rewrite app_assoc.
        -- cbn [List.length]. lia.
    + now apply attempt_result_never_exits in Hres.
Qed.

End LoopInvariant.

(** ** The whole download against an arbitrary engine *)

Section DownloadInvariant.

Variable env : Env.
Variable cfg : Config.

Lemma py_range_length (lo hi : Z) : List.length (py_range lo hi) = Z.to_nat (hi - lo).
Proof. unfold py_range. now rewrite length_map, length_seq. Qed.

Lemma py_range_empty (lo hi : Z) : hi <= lo -> py_range lo hi = [].
Proof.
  intros H. unfold py_range.
  now replace (Z.to_nat (hi - lo)) with 0%nat by lia.
Qed.

Lemma filter_below_budget (n : nat) :
  forall lo,
    filter (fun a => a <? lo + Z.of_nat n) (py_range lo (lo + Z.of_nat n + 1))
    = py_range lo (lo + Z.of_nat n).
Proof.
  induction n as [|n IH]; intros lo.
  - rewrite Z.add_0_r, (py_range_cons lo (lo + 1)) by lia.
    rewrite (py_range_empty (lo + 1)), (py_range_empty lo lo) by lia.
    cbn [filter]. now rewrite Z.ltb_irrefl.
  - rewrite (py_range_cons lo (lo + Z.of_nat (S n) + 1)) by lia.
    rewrite (py_range_cons lo (lo + Z.of_nat (S n))) by lia.
    cbn [filter].
    replace (lo <? lo + Z.of_nat (S n)) with true by (symmetry; apply Z.ltb_lt; lia).
    f_equal.
    replace (lo + Z.of_nat (S n)) with (lo + 1 + Z.of_nat n) by lia.
    apply IH.
Qed.

(** The delays of a whole budget: base times 1, 2, ... up to the budget
    less one. *)
Lemma backoff_delays_budget :
  backoff_delays cfg (py_range 1 (RETRY_COUNT cfg + 1))
  = map (fun a => RETRY_DELAY_BASE cfg * a) (py_range 1 (RETRY_COUNT cfg)).
Proof.
  unfold backoff_delays. f_equal.
  destruct (Z_le_gt_dec 1 (RETRY_COUNT cfg)) as [Hge|Hlt].
  - pose proof (filter_below_budget (Z.to_nat (RETRY_COUNT cfg - 1)) 1) as H.
    replace (1 + Z.of_nat (Z.to_nat (RETRY_COUNT cfg - 1))) with (RETRY_COUNT cfg)
      in H by lia.
    exact H.
  - now rewrite !py_range_empty by lia.
Qed.

Lemma forallb_supervision_written (evs : list event) :
  forallb supervision_event evs = true -> written evs = [].
Proof.
  induction evs as [|e r IH]; [reflexivity|].
  cbn [forallb]. intros H. apply andb_prop in H as [He Hr].
  destruct e; try discriminate He; cbn [written flat_map app]; now apply IH.
Qed.

Lemma last_of_repeat {A : Type} (a : A) (n : nat) :
  (1 <= n)%nat -> last_of (repeat a n) = Some a.
Proof.
  intros H. induction n as [|n IH]; [lia|].
  destruct n as [|n]; [reflexivity|].
  change (last_of (repeat a (S (S n)))) with (last_of (repeat a (S n))).
  apply IH. lia.
Qed.

Lemma download_invariant (input_link : string) (st : State) :
  exists k evs r,
    download_with_retries env cfg input_link st = (r, after st k evs)
    /\ (k <= Z.to_nat (RETRY_COUNT cfg) + 1)%nat
    /\ List.length (spawned evs) = k
    /\ (forall args,
          build_aria2_args env cfg input_link = Some args ->
          exists j,
            (j <= Z.to_nat (RETRY_COUNT cfg))%nat
            /\ (spawned evs = repeat (ARIA2_PATH cfg :: args) j
                \/ (j = Z.to_nat (RETRY_COUNT cfg)
                    /\ spawned evs
                       = (repeat (ARIA2_PATH cfg :: args) j
                          ++ [ARIA2_PATH cfg :: fallback_args args])%list)))
    /\ (build_aria2_args env cfg input_link = None -> k = 0%nat /\ evs = [])
    /\ (exists m,
          slept evs
          = firstn m (map (fun a => RETRY_DELAY_BASE cfg * a)
                          (py_range 1 (RETRY_COUNT cfg))))
    /\ forallb supervision_event evs = true
    /\ match r with
       | Ok _ =>
           (1 <= k)%nat
           /\ (exists cmd lines,
                 engine env (launches st + (k - 1)) cmd = Runs lines 0
                 /\ last_of (spawned evs) = Some cmd)
           /\ exists front,
                evs = (front ++ [EvPrint "[INFO] Download completed successfully."])%list
       | Raise _ => k = 0%nat -> build_aria2_args env cfg input_link = None
       | Exit _ => False
       end.
Proof.
  unfold download_with_retries.
  destruct (build_aria2_args env cfg input_link) as [args|] eqn:Hargs.
  2:{ exists 0%nat, [], (Raise (Exn ValueError
        "Invalid input. Must be magnet link, torrent URL, or local .torrent file path.")).
      unfold raise. rewrite after_nil.
      repeat split; try reflexivity; try lia; try discriminate. now exists 0%nat. }
  rename Hargs into Hsome.
  destruct (retry_loop_invariant env cfg args (py_range 1 (RETRY_COUNT cfg + 1)) st)
    as [k [evs [r [Hloop [Hk [Hsp [[m Hsl] [Hsup Hr]]]]]]]].
  rewrite py_range_length in Hk.
  replace (RETRY_COUNT cfg + 1 - 1) with (RETRY_COUNT cfg) in Hk by lia.
  rewrite backoff_delays_budget in Hsl.
  unfold bind at 1. rewrite Hloop.
  destruct r as [[|]|e|c]; [| | |contradiction].
  - (* returned from inside the loop *)
    exists k, evs, (Ok tt). unfold ret.
    split; [reflexivity|]. split; [lia|].
    split; [now rewrite Hsp, repeat_length|].
    split; [intros args' Ha; injection Ha as <-; exists k; split; [lia|now left]|].
    split; [discriminate|]. split; [now exists m|]. split; [exact Hsup|].
    destruct Hr as [Hk1 [Hok Hdone]]. split; [exact Hk1|]. split; [|exact Hdone].
    apply attempt_result_ok in Hok as [lines Hok].
    exists (ARIA2_PATH cfg :: args), lines. split; [exact Hok|].
    rewrite Hsp. now apply last_of_repeat.
  - (* budget used up: the fallback attempt *)
    rewrite py_range_length in Hr.
    replace (RETRY_COUNT cfg + 1 - 1) with (RETRY_COUNT cfg) in Hr by lia.
    unfold print_warn, print, bind, emit.
    rewrite run_with_progress_spec, !after_after. cbn [after launches].
    rewrite !Nat.add_0_r.
    set (o := engine env (launches st + k) (ARIA2_PATH cfg :: fallback_args args)).
    assert (Hspawn :
      spawned ((evs ++ [EvPrint ("[WARN] " ++ "Applying fallback options...")])
               ++ attempt_events cfg (fallback_args args) o)
      = (repeat (ARIA2_PATH cfg :: args) k
         ++ [ARIA2_PATH cfg :: fallback_args args])%list).
    { rewrite !spawned_app, Hsp, <- (spawned_schedule (attempt_events _ _ _)),
        schedule_attempt_events. cbn [spawned flat_map app]. now rewrite app_nil_r. }
    eexists (k + 1)%nat, _, (attempt_result o).
    split; [reflexivity|]. split; [lia|].
    split; [rewrite Hspawn, length_app, repeat_length; reflexivity|].
    split.
    { intros args' Ha. injection Ha as <-. exists k. split; [lia|].
      right. split; [exact Hr|exact Hspawn]. }
    split; [discriminate|].
    split.
    { exists m. rewrite !slept_app, Hsl,
        <- (slept_schedule (attempt_events _ _ _)), schedule_attempt_events.
      cbn [slept flat_map app]. now rewrite !app_nil_r. }
    split.
    { rewrite !forallb_app, Hsup. cbn [forallb supervision_event andb].
      pose proof (supervision_attempt cfg (fallback_args args) 0 o) as H.
      cbn [forallb attempt_banner supervision_event andb] in H. exact H. }
    destruct (attempt_result o) as [[]|e|c] eqn:Hres; [|intros; lia|].
    + split; [lia|]. split.
      * apply attempt_result_ok in Hres as [lines Hres].
        exists (ARIA2_PATH cfg :: fallback_args args), lines.
        split; [|rewrite Hspawn; apply last_of_app_single].
        now replace (launches st + (k + 1 - 1))%nat with (launches st + k)%nat by lia.
      * destruct (attempt_events_completed cfg (fallback_args args) o Hres)
          as [front ->].
        eexists. now rewrite app_assoc.
    + now apply attempt_result_never_exits in Hres.
  - (* an exception left the loop *)
    exists k, evs, (Raise e).
    split; [reflexivity|]. split; [lia|].
    split; [now rewrite Hsp, repeat_length|].
    split; [intros args' Ha; injection Ha as <-; exists k; split; [lia|now left]|].
    split; [discriminate|]. split; [now exists m|]. split; [exact Hsup|].
    intros; lia.
Qed.

End DownloadInvariant.

(** ** Every run of [main] *)

Section RunShape.

Variable env : Env.
Variable cfg : Config.

Lemma prelude_is_setup :
  prelude_events env cfg
  = (setup_events env cfg ++ [EvPrint ("[INFO] Using aria2c at: " ++ ARIA2_PATH cfg)])%list.
Proof. unfold prelude_events, setup_events. now rewrite <- !app_assoc. Qed.

Lemma run_at_eof :
  stdin_line env = None -> run env cfg = (1, after init_state 0 welcome_events).
Proof.
  intros Hin. unfold run, main, input, print.
  unfold bind at 1. unfold emit at 1. unfold bind at 1. unfold bind at 1.
  unfold emit at 1. rewrite Hin. unfold raise.
  now rewrite after_after.
Qed.

Lemma run_on_empty_input (typed : string) :
  stdin_line env = Some typed -> PyStr.strip typed = EmptyString ->
  run env cfg
  = (1, after init_state 0 (welcome_events ++ [EvPrint "[ERROR] No input provided."])).
Proof.
  intros Hin Hstrip. unfold run, main, input, print_error, print.
  unfold bind at 1. unfold emit at 1. unfold bind at 1. unfold bind at 1.
  unfold emit at 1. rewrite Hin. unfold ret at 1. rewrite Hstrip.
  cbn [is_empty]. unfold bind, emit, sys_exit.
  now rewrite !after_after.
Qed.

Lemma run_without_engine (typed : string) :
  stdin_line env = Some typed -> PyStr.strip typed <> EmptyString ->
  path_exists env (ARIA2_PATH cfg) = false ->
  run env cfg
  = (1, after init_state 0
          (setup_events env cfg
           ++ [EvPrint ("[ERROR] aria2c not found at " ++ ARIA2_PATH cfg
                        ++ ". Please check the path.")])).
Proof.
  intros Hin Hne Haria.
  unfold run, main, input, print_error, print.
  unfold bind at 1. unfold emit at 1. unfold bind at 1. unfold bind at 1.
  unfold emit at 1. rewrite Hin. unfold ret at 1.
  rewrite (is_empty_false _ Hne). unfold bind at 1. unfold ret at 1.
  unfold ensure_dirs, ensure_config. unfold bind at 1. unfold bind at 1.
  unfold emit at 1. unfold emit at 1. unfold bind at 1.
  rewrite Haria. cbn [negb]. unfold setup_events.
  destruct (path_exists env (DEFAULT_CONF_FILE cfg));
    unfold print_info, print, bind, emit, ret, sys_exit;
    now rewrite !after_after.
Qed.

Lemma run_without_path (typed : string) :
  stdin_line env = Some typed -> PyStr.strip typed <> EmptyString ->
  path_exists env (ARIA2_PATH cfg) = true ->
  is_uri (PyStr.strip typed) = false ->
  path_exists env (PyStr.strip typed) = false ->
  run env cfg
  = (1, after init_state 0
          (prelude_events env cfg
           ++ [EvPrint "[ERROR] The file path you entered does not exist."])).
Proof.
  intros Hin Hne Haria Huri Hpath.
  unfold run, main, input, print_error, print_info, print.
  unfold bind at 1. unfold emit at 1. unfold bind at 1. unfold bind at 1.
  unfold emit at 1. rewrite Hin. unfold ret at 1.
  rewrite (is_empty_false _ Hne). unfold bind at 1. unfold ret at 1.
  unfold ensure_dirs, ensure_config. unfold bind at 1. unfold bind at 1.
  unfold emit at 1. unfold emit at 1. unfold bind at 1.
  rewrite Haria. cbn [negb]. unfold is_uri in Huri. rewrite Huri, Hpath.
  unfold prelude_events.
  destruct (path_exists env (DEFAULT_CONF_FILE cfg));
    unfold print_info, print, bind, emit, ret, sys_exit;
    now rewrite !after_after.
Qed.

Lemma run_has_shape : run_shape env cfg (run env cfg).
Proof.
  destruct (stdin_line env) as [typed|] eqn:Hin;
    [|rewrite (run_at_eof Hin); now constructor].
  destruct (string_dec (PyStr.strip typed) EmptyString) as [Hempty|Hne];
    [rewrite (run_on_empty_input typed Hin Hempty); now apply (EmptyInput env cfg typed)|].
  destruct (path_exists env (ARIA2_PATH cfg)) eqn:Haria;
    [|rewrite (run_without_engine typed Hin Hne Haria); now apply (NoEngine env cfg typed)].
  destruct (is_uri (PyStr.strip typed) || path_exists env (PyStr.strip typed))
    eqn:Hgate.
  - assert (Hchk : passes_checks env cfg (PyStr.strip typed)).
    { split; [now exists typed|]. split; [exact Hne|]. split; [exact Haria|].
      exact Hgate. }
    rewrite (run_after_checks env cfg _ Hchk).
    destruct (download_invariant env cfg (PyStr.strip typed)
                (after init_state 0 (prelude_events env cfg)))
      as [k [evs [r [Hd [_ [_ [_ [_ [_ [Hsup Hr]]]]]]]]]].
    rewrite Hd. destruct r as [[]|e|c]; [| |contradiction].
    + rewrite after_after. apply (Downloaded env cfg typed k evs); try assumption;
        apply Hr.
    + rewrite !after_after, Nat.add_0_r.
      now apply (Failed env cfg typed k evs e).
  - apply orb_false_elim in Hgate as [Huri Hpath].
    rewrite (run_without_path typed Hin Hne Haria Huri Hpath).
    now apply (NoPath env cfg typed).
Qed.

End RunShape.

(** ** What no engine behaviour can change *)

(** X1. Whatever the children do, [download_with_retries] starts at most
    one process more than the retry budget, and none for an input it
    rejects; all of them run the normal command line, except that the last
    may be the fallback one, and then only after a full budget of normal
    launches. *)
Theorem launches_never_exceed_budget
    (env : Env) (cfg : Config) (input_link : string) (st : State) :
  exists k evs,
    snd (download_with_retries env cfg input_link st) = after st k evs
    /\ (k <= Z.to_nat (RETRY_COUNT cfg) + 1)%nat
    /\ List.length (spawned evs) = k
    /\ (build_aria2_args env cfg input_link = None -> k = 0%nat)
    /\ (forall args,
          build_aria2_args env cfg input_link = Some args ->
          exists j,
            (j <= Z.to_nat (RETRY_COUNT cfg))%nat
            /\ (spawned evs = repeat (ARIA2_PATH cfg :: args) j
                \/ (j = Z.to_nat (RETRY_COUNT cfg)
                    /\ spawned evs
                       = (repeat (ARIA2_PATH cfg :: args) j
                          ++ [ARIA2_PATH cfg :: fallback_args args])%list))).
Proof.
  destruct (download_invariant env cfg input_link st)
    as [k [evs [r [Hd [Hk [Hlen [Hsp [Hnone _]]]]]]]].
  exists k, evs. rewrite Hd. cbn [snd].
  split; [reflexivity|]. split; [exact Hk|]. split; [exact Hlen|].
  split; [|exact Hsp]. intros H. now apply Hnone.
Qed.

Lemma launches_never_exceed_budget_witness :
  exists k evs,
    snd (download_with_retries (demo_machine (failing_first 9)) demo_config
           demo_magnet init_state) = after init_state k evs
    /\ (k <= 4)%nat.
Proof.
  destruct (launches_never_exceed_budget (demo_machine (failing_first 9)) demo_config
              demo_magnet init_state) as [k [evs [H [Hk _]]]].
  exists k, evs. split; [exact H|exact Hk].
Defined.

Lemma total_app (a b : list Z) : total (a ++ b) = total a + total b.
Proof. induction a as [|x r IH]; cbn; [reflexivity|]. fold (total (r ++ b)) (total r). lia. Qed.

Lemma total_firstn_le (l : list Z) (m : nat) :
  Forall (fun x => 0 <= x) l -> 0 <= total (firstn m l) <= total l.
Proof.
  intros H. revert m. induction H as [|x r Hx Hr IH]; intros m.
  - rewrite firstn_nil. cbn. lia.
  - destruct m as [|m]; cbn [firstn total fold_right]; fold (total r).
    + specialize (IH 0%nat). rewrite firstn_O in IH. cbn in IH. lia.
    + fold (total (firstn m r)). specialize (IH m). lia.
Qed.

Lemma total_backoff (base : Z) (n : nat) :
  forall lo,
    2 * total (map (fun a => base * a) (py_range lo (lo + Z.of_nat n)))
    = base * Z.of_nat n * (2 * lo + Z.of_nat n - 1).
Proof.
  induction n as [|n IH]; intros lo.
  - rewrite py_range_empty by lia. cbn. lia.
  - rewrite py_range_cons by lia. cbn [map total fold_right].
    fold (total (map (fun a => base * a) (py_range (lo + 1) (lo + Z.of_nat (S n))))).
    replace (lo + Z.of_nat (S n)) with (lo + 1 + Z.of_nat n) by lia.
    specialize (IH (lo + 1)). nia.
Qed.

(** X2. Whatever the children do, the sleeps taken are the first few of
    base times 1, base times 2, ..., base times budget-less-one, in that
    order; with a non-negative base the download therefore never sleeps
    longer in all than base * budget * (budget - 1) / 2 seconds. *)
Theorem sleeps_follow_linear_backoff
    (env : Env) (cfg : Config) (input_link : string) (st : State) :
  exists k evs m,
    snd (download_with_retries env cfg input_link st) = after st k evs
    /\ slept evs
       = firstn m (map (fun a => RETRY_DELAY_BASE cfg * a)
                       (py_range 1 (RETRY_COUNT cfg)))
    /\ (List.length (slept evs) <= Z.to_nat (RETRY_COUNT cfg - 1))%nat
    /\ (0 <= RETRY_DELAY_BASE cfg ->
        0 <= 2 * total (slept evs)
          <= RETRY_DELAY_BASE cfg * RETRY_COUNT cfg * (RETRY_COUNT cfg - 1)).
Proof.
  destruct (download_invariant env cfg input_link st)
    as [k [evs [r [Hd [_ [_ [_ [_ [[m Hsl] _]]]]]]]]].
  exists k, evs, m. rewrite Hd. cbn [snd].
  split; [reflexivity|]. split; [exact Hsl|]. split.
  - rewrite Hsl, length_firstn, length_map, py_range_length. lia.
  - intros HB. rewrite Hsl.
    set (delays := map (fun a => RETRY_DELAY_BASE cfg * a) (py_range 1 (RETRY_COUNT cfg))).
    assert (Hpos : Forall (fun x => 0 <= x) delays).
    { subst delays. apply Forall_forall. intros x Hx.
      apply in_map_iff in Hx as [a [<- Ha]].
      unfold py_range in Ha. apply in_map_iff in Ha as [i [<- _]]. nia. }
    pose proof (total_firstn_le delays m Hpos) as Hle.
    destruct (Z_le_gt_dec 1 (RETRY_COUNT cfg)) as [Hge|Hlt].
    + pose proof (total_backoff (RETRY_DELAY_BASE cfg)
                    (Z.to_nat (RETRY_COUNT cfg - 1)) 1) as Hsum.
      replace (1 + Z.of_nat (Z.to_nat (RETRY_COUNT cfg - 1))) with (RETRY_COUNT cfg)
        in Hsum by lia.
      fold delays in Hsum.
      replace (Z.of_nat (Z.to_nat (RETRY_COUNT cfg - 1))) with (RETRY_COUNT cfg - 1)
        in Hsum by lia.
      nia.
    + subst delays. rewrite py_range_empty in * by lia.
      cbn [map] in *. rewrite firstn_nil in *. cbn [total fold_right] in *. nia.
Qed.

Lemma sleeps_follow_linear_backoff_witness :
  exists k evs,
    snd (download_with_retries (demo_machine (failing_first 9)) demo_config
           demo_magnet init_state) = after init_state k evs
    /\ 0 <= 2 * total (slept evs) <= 30.
Proof.
  destruct (sleeps_follow_linear_backoff (demo_machine (failing_first 9)) demo_config
              demo_magnet init_state) as [k [evs [m [H [_ [_ Hsum]]]]]].
  exists k, evs. split; [exact H|]. apply Hsum. cbn. lia.
Defined.



(** ** Files and directories *)

Lemma written_app (a b : list event) : written (a ++ b) = (written a ++ written b)%list.
Proof. apply flat_map_app. Qed.

Lemma written_setup (env : Env) (cfg : Config) :
  written (setup_events env cfg)
  = if path_exists env (DEFAULT_CONF_FILE cfg) then []
    else [(DEFAULT_CONF_FILE cfg, PyStr.join newline (config_lines cfg))].
Proof.
  unfold setup_events. now destruct (path_exists env (DEFAULT_CONF_FILE cfg)).
Qed.

(** X4. A run never overwrites an existing configuration file, and writes
    no other file: it writes nothing at all when the file exists or when
    nothing was typed, and otherwise exactly once, the default
    configuration to the configuration path.  The download itself, whatever
    the children do, writes nothing. *)
Theorem config_file_written_at_most_once (env : Env) (cfg : Config) :
  (path_exists env (DEFAULT_CONF_FILE cfg) = true ->
   written (trace (snd (run env cfg))) = [])
  /\ (written (trace (snd (run env cfg))) = []
      \/ (path_exists env (DEFAULT_CONF_FILE cfg) = false
          /\ written (trace (snd (run env cfg)))
             = [(DEFAULT_CONF_FILE cfg, PyStr.join newline (config_lines cfg))]))
  /\ (forall input_link st k evs,
        snd (download_with_retries env cfg input_link st) = after st k evs ->
        written evs = []).
Proof.
  assert (Hcases :
    written (trace (snd (run env cfg))) = []
    \/ written (trace (snd (run env cfg))) = written (setup_events env cfg)).
  { destruct (run_has_shape env cfg)
      as [Hin|typed Hin He|typed Hin Hne Ha|typed Hin Hne Ha Hu Hp
          |typed k evs Hin Hchk Hd Hsup Hdone Hk1|typed k evs e Hin Hchk Hd Hsup Hk0];
      cbn [fst snd after trace init_state app].
    - now left.
    - now left.
    - right. rewrite written_app. cbn [written flat_map app]. now rewrite app_nil_r.
    - right. rewrite prelude_is_setup, !written_app.
      cbn [written flat_map app]. now rewrite !app_nil_r.
    - right. rewrite prelude_is_setup, !written_app,
        (forallb_supervision_written evs Hsup).
      cbn [written flat_map app]. now rewrite !app_nil_r.
    - right. rewrite prelude_is_setup, !written_app,
        (forallb_supervision_written evs Hsup).
      cbn [written flat_map app]. now rewrite !app_nil_r. }
  rewrite written_setup in Hcases.
  split; [|split].
  - intros Hex. rewrite Hex in Hcases. now destruct Hcases.
  - destruct (path_exists env (DEFAULT_CONF_FILE cfg)).
    + left. now destruct Hcases.
    + destruct Hcases as [H|H]; [now left|right; now split].
  - intros input_link st k evs Hsnd.
    destruct (download_invariant env cfg input_link st)
      as [k' [evs' [r [Hd [_ [_ [_ [_ [_ [Hsup _]]]]]]]]]].
    rewrite Hd in Hsnd. cbn [snd] in Hsnd.
    apply (f_equal trace) in Hsnd. cbn [after trace] in Hsnd.
    apply app_inv_head in Hsnd. subst evs'.
    now apply forallb_supervision_written.
Qed.

Lemma config_file_written_at_most_once_witness :
  written (trace (snd (run (demo_env demo_magnet
                              [ARIA2_PATH demo_config; DEFAULT_CONF_FILE demo_config] []
                              (failing_first 9))
                           demo_config))) = [].
Proof.
  exact (proj1 (config_file_written_at_most_once
                  (demo_env demo_magnet
                     [ARIA2_PATH demo_config; DEFAULT_CONF_FILE demo_config] []
                     (failing_first 9)) demo_config) eq_refl).
Defined.

(** X5. Once something other than white space was typed, the download and
    configuration directories are made and the configuration file is
    ensured before anything is checked: these events open the trace of the
    run even when it then ends with status 1 for a missing engine or a
    missing path.  When nothing was typed, nothing is made or written. *)
Theorem setup_precedes_checks (env : Env) (cfg : Config) (typed : string) :
  stdin_line env = Some typed ->
  (PyStr.strip typed <> EmptyString ->
   exists rest, trace (snd (run env cfg)) = (setup_events env cfg ++ rest)%list)
  /\ (PyStr.strip typed = EmptyString ->
      run env cfg
      = (1, after init_state 0
              (welcome_events ++ [EvPrint "[ERROR] No input provided."]))).
Proof.
  intros Hin. split; [|now apply run_on_empty_input].
  intros Hne.
  destruct (run_has_shape env cfg)
    as [Hin'|typed' Hin' He|typed' Hin' Hne' Ha|typed' Hin' Hne' Ha Hu Hp
        |typed' k evs Hin' Hchk Hd Hsup Hdone Hk1|typed' k evs e Hin' Hchk Hd Hsup Hk0];
    cbn [fst snd after trace init_state app];
    try (rewrite Hin in Hin'; injection Hin' as <-); try congruence;
    rewrite ?prelude_is_setup, <- ?app_assoc; now eexists.
Qed.

Lemma setup_precedes_checks_witness :
  fst (run (demo_env "C:/nowhere/a.torrent" [] [] (failing_first 0)) demo_config) = 1
  /\ exists rest,
       trace (snd (run (demo_env "C:/nowhere/a.torrent" [] [] (failing_first 0))
                       demo_config))
       = (setup_events (demo_env "C:/nowhere/a.torrent" [] [] (failing_first 0))
                       demo_config ++ rest)%list.
Proof.
  split; [reflexivity|].
  destruct (setup_precedes_checks
              (demo_env "C:/nowhere/a.torrent" [] [] (failing_first 0)) demo_config
              "C:/nowhere/a.torrent" eq_refl) as [Hsetup _].
  apply Hsetup. discriminate.
Defined.

(** ** Any retry budget *)

Lemma slept_backoff_schedule (cfg : Config) (cmd : list string) (failed : nat) :
  forall attempt,
    slept (backoff_schedule cfg cmd attempt failed)
    = map (fun a => RETRY_DELAY_BASE cfg * a)
          (py_range attempt (attempt + Z.of_nat failed)).
Proof.
  induction failed as [|n IH]; intros attempt.
  - now rewrite py_range_empty by lia.
  - rewrite py_range_cons by lia. cbn [backoff_schedule map].
    cbn [slept flat_map app]. f_equal.
    fold (slept (backoff_schedule cfg cmd (attempt + 1) n)).
    rewrite IH. now replace (attempt + 1 + Z.of_nat n) with (attempt + Z.of_nat (S n)) by lia.
Qed.

(** X6. For any retry budget of at least one and any non-negative base:
    when every normal attempt of the budget exits non-zero, the download
    ends as the fallback attempt ends, after budget-plus-one launches, the
    fallback launch last, and a sleep of base times the attempt number after
    every normal attempt but the last. *)
Theorem budget_exhaustion_schedule
    (env : Env) (cfg : Config) (input_link : string) (args : list string)
    (n : nat) (st : State) :
  Z.of_nat n = RETRY_COUNT cfg -> (1 <= n)%nat -> 0 <= RETRY_DELAY_BASE cfg ->
  build_aria2_args env cfg input_link = Some args ->
  let cmd := ARIA2_PATH cfg :: args in
  let fcmd := ARIA2_PATH cfg :: fallback_args args in
  (forall i, (i < n)%nat ->
             exists lines rc, engine env (launches st + i) cmd = Runs lines rc /\ rc <> 0) ->
  exists evs,
    download_with_retries env cfg input_link st
    = (attempt_result (engine env (launches st + n) fcmd), after st (S n) evs)
    /\ schedule evs
       = (backoff_schedule cfg cmd 1 (n - 1) ++ [EvSpawn cmd; EvSpawn fcmd])%list
    /\ spawned evs = (repeat cmd n ++ [fcmd])%list
    /\ slept evs
       = map (fun a => RETRY_DELAY_BASE cfg * a) (py_range 1 (RETRY_COUNT cfg)).
Proof.
  intros HR Hn HB Hargs cmd fcmd Hfail.
  destruct (retry_loop_budget_exhausted env cfg args n st HR Hn HB Hfail)
    as [evs [Hloop Hsched]].
  unfold download_with_retries. rewrite Hargs. unfold bind at 1. rewrite Hloop.
  unfold print_warn, print, bind, emit.
  rewrite run_with_progress_spec, !after_after. cbn [after launches].
  rewrite !Nat.add_0_r, Nat.add_1_r.
  eexists. split; [reflexivity|].
  assert (Hs : schedule
                 ((evs ++ [EvPrint ("[WARN] " ++ "Applying fallback options...")])
                  ++ attempt_events cfg (fallback_args args)
                       (engine env (launches st + n) (ARIA2_PATH cfg :: fallback_args args)))
               = (backoff_schedule cfg cmd 1 (n - 1) ++ [EvSpawn cmd; EvSpawn fcmd])%list).
  { rewrite !schedule_app, Hsched, schedule_attempt_events.
    cbn [schedule filter]. now rewrite app_nil_r, <- app_assoc. }
  split; [exact Hs|]. split.
  - rewrite <- spawned_schedule, Hs, spawned_app, spawned_backoff_schedule.
    cbn [spawned flat_map app].
    replace n with (n - 1 + 1)%nat at 2 by lia.
    now rewrite repeat_app, <- app_assoc.
  - rewrite <- slept_schedule, Hs, slept_app, slept_backoff_schedule.
    cbn [slept flat_map app]. rewrite app_nil_r.
    now replace (1 + Z.of_nat (n - 1)) with (RETRY_COUNT cfg) by lia.
Qed.

Lemma budget_exhaustion_schedule_witness :
  exists evs,
    download_with_retries (demo_machine (always_exits 1)) (demo_config_with 5 2)
      demo_magnet init_state
    = (Raise (Exn RuntimeError "aria2c exited with status 1"), after init_state 6 evs)
    /\ slept evs = [2; 4; 6; 8].
Proof.
  destruct (budget_exhaustion_schedule
              (demo_machine (always_exits 1)) (demo_config_with 5 2)
              demo_magnet _ 5%nat init_state eq_refl ltac:(lia) ltac:(cbn; lia) eq_refl)
    as [evs [Hd [_ [_ Hsl]]]].
  - intros i Hi. exists [], 1. split; [reflexivity|discriminate].
  - exists evs. split; [exact Hd|exact Hsl].
Defined.

(** X7. For any retry budget and non-negative base: when attempt number
    [failed + 1], still within the budget, exits with zero after [failed]
    attempts that exited non-zero, the download returns normally after
    [failed + 1] launches of the normal command and a sleep after each
    failed attempt; the fallback command is never launched. *)
Theorem success_within_budget_schedule
    (env : Env) (cfg : Config) (input_link : string) (args : list string)
    (failed : nat) (st : State) :
  Z.of_nat failed < RETRY_COUNT cfg -> 0 <= RETRY_DELAY_BASE cfg ->
  build_aria2_args env cfg input_link = Some args ->
  let cmd := ARIA2_PATH cfg :: args in
  let fcmd := ARIA2_PATH cfg :: fallback_args args in
  (forall i, (i < failed)%nat ->
             exists lines rc, engine env (launches st + i) cmd = Runs lines rc /\ rc <> 0) ->
  attempt_result (engine env (launches st + failed) cmd) = Ok tt ->
  exists evs,
    download_with_retries env cfg input_link st = (Ok tt, after st (S failed) evs)
    /\ schedule evs = (backoff_schedule cfg cmd 1 failed ++ [EvSpawn cmd])%list
    /\ spawned evs = repeat cmd (S failed)
    /\ ~ In fcmd (spawned evs)
    /\ slept evs
       = map (fun a => RETRY_DELAY_BASE cfg * a) (py_range 1 (1 + Z.of_nat failed)).
Proof.
  intros Hk HB Hargs cmd fcmd Hfail Hok.
  destruct (retry_loop_prefix env cfg args failed 1 st HB ltac:(lia) ltac:(lia) Hfail)
    as [evs [Hloop Hsched]].
  rewrite (py_range_cons (1 + Z.of_nat failed)) in Hloop by lia.
  rewrite retry_loop_returns in Hloop by exact Hok.
  rewrite after_after in Hloop. cbn [after launches] in Hloop.
  unfold download_with_retries. rewrite Hargs. unfold bind at 1. rewrite Hloop.
  unfold ret. rewrite Nat.add_1_r. eexists. split; [reflexivity|].
  assert (Hs : schedule
                 (evs ++ attempt_banner cfg (1 + Z.of_nat failed)
                         :: attempt_events cfg args
                              (engine env (launches st + failed) (ARIA2_PATH cfg :: args)))
               = (backoff_schedule cfg cmd 1 failed ++ [EvSpawn cmd])%list).
  { rewrite schedule_app, Hsched. now autorewrite with sched. }
  assert (Hsp : spawned
                  (evs ++ attempt_banner cfg (1 + Z.of_nat failed)
                          :: attempt_events cfg args
                               (engine env (launches st + failed) (ARIA2_PATH cfg :: args)))
                = repeat cmd (S failed)).
  { rewrite <- spawned_schedule, Hs, spawned_app, spawned_backoff_schedule.
    cbn [spawned flat_map app]. now rewrite <- repeat_cons. }
  split; [exact Hs|]. split; [exact Hsp|]. split.
  - rewrite Hsp. intros Hin. apply repeat_spec in Hin.
    injection Hin as Hin. now apply fallback_args_differ in Hin.
  - rewrite <- slept_schedule, Hs, slept_app, slept_backoff_schedule.
    cbn [slept flat_map app]. now rewrite app_nil_r.
Qed.

Lemma success_within_budget_schedule_witness :
  exists evs,
    download_with_retries (demo_machine (failing_first 1)) demo_config demo_magnet init_state
    = (Ok tt, after init_state 2 evs)
    /\ slept evs = [5].
Proof.
  destruct (success_within_budget_schedule (demo_machine (failing_first 1)) demo_config
              demo_magnet demo_args 1 init_state ltac:(cbn; lia) ltac:(cbn; lia) eq_refl)
    as [evs [Hd [_ [_ [_ Hsl]]]]].
  - intros i Hi. exists ["[#abc1 1.2MiB/10MiB(12%) CN:3 ...]"], 1. split; [|discriminate].
    destruct i as [|i]; [reflexivity|lia].
  - reflexivity.
  - exists evs. split; [exact Hd|exact Hsl].
Defined.

(** X8. With a retry budget of zero or less the loop body never runs: no
    attempt is announced, the normal command is never launched, nothing is
    slept, and the only process started is the fallback one, whose end is
    the end of the download. *)
Theorem empty_budget_goes_straight_to_fallback
    (env : Env) (cfg : Config) (input_link : string) (args : list string) (st : State) :
  RETRY_COUNT cfg <= 0 ->
  build_aria2_args env cfg input_link = Some args ->
  let fcmd := ARIA2_PATH cfg :: fallback_args args in
  download_with_retries env cfg input_link st
  = (attempt_result (engine env (launches st) fcmd),
     after st 1 (EvPrint "[WARN] Applying fallback options..."
                 :: attempt_events cfg (fallback_args args)
                      (engine env (launches st) fcmd)))
  /\ schedule (EvPrint "[WARN] Applying fallback options..."
               :: attempt_events cfg (fallback_args args) (engine env (launches st) fcmd))
     = [EvSpawn fcmd].
Proof.
  intros HR Hargs fcmd. split.
  - unfold download_with_retries. rewrite Hargs, py_range_empty by lia.
    cbn [retry_loop]. unfold bind at 1. unfold ret.
    unfold print_warn, print, bind, emit.
    rewrite run_with_progress_spec, !after_after. cbn [after launches].
    now rewrite Nat.add_0_r.
  - now rewrite schedule_print, schedule_attempt_events.
Qed.

Lemma empty_budget_goes_straight_to_fallback_witness :
  fst (download_with_retries (demo_machine (always_exits 0)) (demo_config_with 0 5)
         demo_magnet init_state)
  = Ok tt.
Proof.
  rewrite (proj1 (empty_budget_goes_straight_to_fallback
                    (demo_machine (always_exits 0)) (demo_config_with 0 5)
                    demo_magnet _ init_state ltac:(cbn; lia) eq_refl)).
  reflexivity.
Defined.

(** ** Printing and parsing integers *)

Section IntegerText.

Lemma digits_from_uint (d : Decimal.uint) :
  forall acc,
    PyStr.digits_from acc false (NilEmpty.string_of_uint d) = Some (uint_value acc d).
Proof.
  induction d as [|d IH|d IH|d IH|d IH|d IH|d IH|d IH|d IH|d IH|d IH]; intros acc;
    [reflexivity|..];
    cbn [NilEmpty.string_of_uint PyStr.digits_from uint_value];
    change (PyStr.is_digit _) with true; cbv iota; apply IH.
Qed.

Lemma uint_value_positive (d : Decimal.uint) :
  forall q : positive, uint_value (Z.pos q) d = Z.pos (Pos.of_uint_acc d q).
Proof.
  induction d as [|d IH|d IH|d IH|d IH|d IH|d IH|d IH|d IH|d IH|d IH]; intros q;
    [reflexivity|..]; cbn [uint_value Pos.of_uint_acc]; rewrite <- IH; f_equal; lia.
Qed.

Lemma uint_value_zero (d : Decimal.uint) : uint_value 0 d = Z.of_N (Pos.of_uint d).
Proof.
  induction d as [|d IH|d IH|d IH|d IH|d IH|d IH|d IH|d IH|d IH|d IH];
    [reflexivity|exact IH|..];
    cbn [uint_value Pos.of_uint Z.of_N]; rewrite <- uint_value_positive; reflexivity.
Qed.

Lemma parse_digits_uint (d : Decimal.uint) :
  d <> Decimal.Nil ->
  PyStr.parse_digits (NilEmpty.string_of_uint d) = Some (Z.of_N (Pos.of_uint d)).
Proof.
  intros Hd. rewrite <- uint_value_zero.
  destruct d; [contradiction|..];
    cbn [NilEmpty.string_of_uint PyStr.parse_digits uint_value];
    change (PyStr.is_digit _) with true; cbv iota; apply digits_from_uint.
Qed.

Lemma plain_uint (avoid : ascii) (d : Decimal.uint) :
  PyStr.is_digit avoid = false ->
  plain avoid (NilEmpty.string_of_uint d) = true.
Proof.
  intros Ha.
  assert (Hne : forall c, PyStr.is_digit c = true -> Ascii.eqb c avoid = false).
  { intros c Hc. destruct (Ascii.eqb c avoid) eqn:E; [|reflexivity].
    apply Ascii.eqb_eq in E. congruence. }
  induction d as [|d IH|d IH|d IH|d IH|d IH|d IH|d IH|d IH|d IH|d IH];
    [reflexivity|..];
    cbn [NilEmpty.string_of_uint plain]; rewrite IH, Hne by reflexivity; reflexivity.
Qed.

Lemma string_of_positive (p : positive) :
  NilZero.string_of_uint (Pos.to_uint p) = NilEmpty.string_of_uint (Pos.to_uint p).
Proof.
  pose proof (Unsigned.to_uint_nonnil p) as Hn.
  now destruct (Pos.to_uint p).
Qed.

Lemma plain_str_of_int (avoid : ascii) (n : Z) :
  PyStr.is_digit avoid = false -> Ascii.eqb "-" avoid = false ->
  plain avoid (PyStr.str_of_int n) = true.
Proof.
  intros Ha Hm. unfold PyStr.str_of_int.
  destruct n as [|p|p]; cbn [Z.to_int NilZero.string_of_int NilZero.string_of_uint].
  - exact (plain_uint avoid (Decimal.D0 Decimal.Nil) Ha).
  - rewrite string_of_positive. now apply plain_uint.
  - rewrite string_of_positive. cbn [plain]. rewrite Hm.
    now rewrite plain_uint.
Qed.

Lemma str_of_int_nonempty (n : Z) : PyStr.str_of_int n <> EmptyString.
Proof.
  unfold PyStr.str_of_int.
  destruct n as [|p|p]; cbn [Z.to_int NilZero.string_of_int]; try discriminate.
  rewrite string_of_positive.
  pose proof (Unsigned.to_uint_nonnil p) as Hn.
  destruct (Pos.to_uint p); [contradiction|..]; discriminate.
Qed.

Lemma lstrip_plain (avoid : ascii) (s : string) : plain avoid s = true -> PyStr.lstrip s = s.
Proof.
  destruct s as [|c r]; [reflexivity|]. cbn [plain PyStr.lstrip].
  now destruct (PyStr.is_space c).
Qed.

Lemma rstrip_plain (avoid : ascii) (s : string) : plain avoid s = true -> PyStr.rstrip s = s.
Proof.
  induction s as [|c r IH]; [reflexivity|]. cbn [plain PyStr.rstrip].
  intros H. apply andb_prop in H as [H Hr]. apply andb_prop in H as [Hc _].
  rewrite (IH Hr). destruct r; [|reflexivity].
  now destruct (PyStr.is_space c).
Qed.

Lemma strip_plain (avoid : ascii) (s : string) : plain avoid s = true -> PyStr.strip s = s.
Proof.
  intros H. unfold PyStr.strip. now rewrite (lstrip_plain avoid s H), (rstrip_plain avoid s H).
Qed.

(** [int(str(n)) == n] *)
Lemma int_str_of_int (n : Z) : PyStr.int (PyStr.str_of_int n) = Ok n.
Proof.
  unfold PyStr.int.
  rewrite (strip_plain "%" _ (plain_str_of_int "%" n eq_refl eq_refl)).
  unfold PyStr.str_of_int.
  destruct n as [|p|p]; cbn [Z.to_int NilZero.string_of_int].
  - reflexivity.
  - pose proof (Unsigned.to_uint_nonnil p) as Hn.
    pose proof (parse_digits_uint (Pos.to_uint p) Hn) as Hp.
    rewrite Unsigned.of_to in Hp. cbn [Z.of_N] in Hp.
    rewrite string_of_positive.
    destruct (Pos.to_uint p) eqn:E; [contradiction|..];
      cbn [NilEmpty.string_of_uint] in *; now rewrite Hp.
  - pose proof (Unsigned.to_uint_nonnil p) as Hn.
    pose proof (parse_digits_uint (Pos.to_uint p) Hn) as Hp.
    rewrite Unsigned.of_to in Hp. cbn [Z.of_N] in Hp.
    rewrite string_of_positive. now rewrite Hp.
Qed.

End IntegerText.

(** ** A percentage printed as a token of its own *)

Section TokenFacts.

Lemma string_app_assoc (a b c : string) : ((a ++ b) ++ c)%string = (a ++ (b ++ c))%string.
Proof. induction a as [|x r IH]; [reflexivity|]. cbn. now rewrite IH. Qed.

Lemma split_go_plain (avoid : ascii) (tok : string) :
  plain avoid tok = true -> PyStr.split_go tok = (tok, []).
Proof.
  induction tok as [|c r IH]; [reflexivity|]. cbn [plain PyStr.split_go].
  intros H. apply andb_prop in H as [H Hr]. apply andb_prop in H as [Hc _].
  rewrite (IH Hr). now destruct (PyStr.is_space c).
Qed.

Lemma push_token_ends (t tok : string) (front : list string) :
  exists front', PyStr.push_token t (front ++ [tok]) = (front' ++ [tok])%list.
Proof.
  destruct t as [|c r]; [now exists front|].
  now exists (String c r :: front).
Qed.

Lemma split_go_after_space (avoid : ascii) (before : string) (c : ascii) (tok : string) :
  PyStr.is_space c = true -> plain avoid tok = true -> tok <> EmptyString ->
  exists t front,
    PyStr.split_go (before ++ String c tok) = (t, (front ++ [tok])%list).
Proof.
  intros Hc Hp Hne. induction before as [|d r [t [front IH]]].
  - cbn [append PyStr.split_go]. rewrite (split_go_plain avoid tok Hp), Hc.
    exists EmptyString, []. destruct tok; [contradiction|reflexivity].
  - cbn [append PyStr.split_go]. rewrite IH.
    destruct (PyStr.is_space d).
    + destruct (push_token_ends t tok front) as [front' ->]. now eexists _, _.
    + now eexists _, _.
Qed.

Lemma before_first_app (c : ascii) (a b : string) :
  PyStr.contains c a = false -> before_first c (a ++ b) = (a ++ before_first c b)%string.
Proof.
  induction a as [|x r IH]; [reflexivity|]. cbn [PyStr.contains append before_first].
  destruct (Ascii.eqb x c); [discriminate|]. intros H. now rewrite IH.
Qed.

Lemma contains_app_r (c : ascii) (a b : string) :
  PyStr.contains c b = true -> PyStr.contains c (a ++ b) = true.
Proof.
  intros H. induction a as [|x r IH]; [exact H|]. cbn [append PyStr.contains].
  now destruct (Ascii.eqb x c).
Qed.

Lemma plain_contains (c : ascii) (s : string) :
  plain c s = true -> PyStr.contains c s = false.
Proof.
  induction s as [|x r IH]; [reflexivity|]. cbn [plain PyStr.contains].
  intros H. apply andb_prop in H as [H Hr]. apply andb_prop in H as [_ Hx].
  apply negb_true_iff in Hx. rewrite Hx. now apply IH.
Qed.

Lemma before_first_token (c : ascii) (tok rest : string) :
  plain c tok = true -> before_first c (tok ++ String c rest) = tok.
Proof.
  intros H. rewrite before_first_app by now apply plain_contains.
  cbn [before_first]. rewrite Ascii.eqb_refl.
  induction tok as [|x r IH]; [reflexivity|]. cbn [append]. f_equal.
  apply IH. cbn [plain] in H. now apply andb_prop in H as [_ H].
Qed.

End TokenFacts.

(** X9. A percentage that stands as a token of its own is recovered
    exactly: for every integer [p], a line in which [str(p)] comes right
    before the first percent sign, at the start of the line or after white
    space, sets the bar to [p], whatever else the line holds. *)
Theorem printed_percentage_is_recovered
    (p n : Z) (before rest : string) (st : State) :
  PyStr.contains "%" before = false ->
  (before = EmptyString
   \/ exists front c, before = (front ++ String c EmptyString)%string
                      /\ PyStr.is_space c = true) ->
  let line := (before ++ PyStr.str_of_int p ++ String "%" rest)%string in
  extraction_rule line = Some p
  /\ observe n line st
     = (Ok p, after st 0 [EvBarRefresh p; EvPrint (PyStr.strip line)]).
Proof.
  intros Hb Hshape line.
  set (tok := PyStr.str_of_int p) in *.
  assert (Hp : plain "%" tok = true) by now apply plain_str_of_int.
  assert (Hne : tok <> EmptyString) by apply str_of_int_nonempty.
  assert (Hrule : extraction_rule line = Some p).
  { unfold extraction_rule, line.
    rewrite contains_app_r
      by (apply contains_app_r; cbn [PyStr.contains]; now rewrite Ascii.eqb_refl).
    rewrite before_first_app by exact Hb.
    rewrite (before_first_token "%" tok rest Hp).
    assert (Hlast : last_of (PyStr.split (before ++ tok)) = Some tok).
    { unfold PyStr.split. destruct Hshape as [->|[front [c [-> Hc]]]].
      - cbn [append]. rewrite (split_go_plain "%" tok Hp).
        destruct tok; [contradiction|reflexivity].
      - rewrite string_app_assoc. cbn [append].
        destruct (split_go_after_space "%" front c tok Hc Hp Hne) as [t [fr ->]].
        destruct (push_token_ends t tok fr) as [fr' ->].
        apply last_of_app_single. }
    rewrite Hlast. subst tok. now rewrite int_str_of_int. }
  split; [exact Hrule|].
  rewrite observe_spec. unfold refresh_of. now rewrite Hrule.
Qed.

Lemma printed_percentage_is_recovered_witness :
  extraction_rule "[#abc1 1.2MiB/10MiB 37% CN:3 ...]" = Some 37.
Proof.
  exact (proj1 (printed_percentage_is_recovered 37 0 "[#abc1 1.2MiB/10MiB " " CN:3 ...]"
                  init_state eq_refl
                  (or_intror (ex_intro _ "[#abc1 1.2MiB/10MiB"
                                (ex_intro _ " "%char (conj eq_refl eq_refl)))))).
Defined.

(** ** What is shown of the engine's output *)

Lemma printed_app (a b : list event) : printed (a ++ b) = (printed a ++ printed b)%list.
Proof. apply flat_map_app. Qed.

Lemma printed_line_events (lines : list string) :
  printed (line_events lines) = map PyStr.strip lines.
Proof.
  induction lines as [|raw rest IH]; [reflexivity|].
  unfold line_events. cbn [flat_map map]. fold (line_events rest).
  rewrite !printed_app, IH. unfold refresh_of.
  now destruct (extraction_rule raw).
Qed.

(** X10. Every line the child writes is printed, stripped, exactly once and
    in order, whether or not a percentage was found in it, between the
    announcement of the command and, after an exit with status zero only,
    the message of completion; lines read before the reading fails are
    printed as well. *)
Theorem every_line_is_echoed
    (env : Env) (cfg : Config) (args : list string) (st : State) :
  exists evs,
    snd (run_with_progress env cfg args st) = after st 1 evs
    /\ let start := "[INFO] Starting aria2c: " ++ PyStr.join " " (ARIA2_PATH cfg :: args) in
       match engine env (launches st) (ARIA2_PATH cfg :: args) with
       | Runs lines returncode =>
           printed evs
           = (start :: map PyStr.strip lines
              ++ (if returncode =? 0
                  then ["[INFO] Download completed successfully."] else []))%list
       | StreamRaises lines _ => printed evs = start :: map PyStr.strip lines
       | SpawnRaises _ => printed evs = [start]
       end.
Proof.
  rewrite run_with_progress_spec. cbn [snd]. eexists. split; [reflexivity|].
  cbv zeta. unfold attempt_events.
  destruct (engine env (launches st) (ARIA2_PATH cfg :: args)) as [e|lines e|lines rc].
  - reflexivity.
  - cbn [app printed flat_map]. fold (printed (line_events lines)).
    now rewrite printed_line_events.
  - cbn [app printed flat_map].
    fold (printed (line_events lines
                   ++ [EvWait; EvBarClose (bar_value 0 lines)]
                   ++ (if rc =? 0
                       then [EvPrint "[INFO] Download completed successfully."]
                       else []))).
    rewrite !printed_app, printed_line_events. now destruct (rc =? 0).
Qed.

(** ** The configuration file and the command line *)

(** X11. The command line repeats the configuration file: every flag that
    [build_aria2_args] always passes, [--auto-file-renaming=true] apart, is
    [--] followed by a line of the default configuration that
    [ensure_config] writes, the tracker list included when there is one. *)
Theorem command_line_repeats_config (cfg : Config) (flag : string) :
  In flag (base_args cfg) ->
  flag = "--auto-file-renaming=true"
  \/ exists line, In line (config_lines cfg) /\ flag = "--" ++ line.
Proof.
  unfold base_args, config_lines. intros H. apply in_app_or in H as [H|H].
  - cbn [In] in H.
    destruct H as [<-|[<-|[<-|[<-|[<-|[<-|[<-|[<-|[<-|[<-|[]]]]]]]]]]];
      try (now left); right.
    + exists ("enable-dht=" ++ (if ENABLE_DHT cfg then "true" else "false")).
      split; [apply in_or_app; left; cbn [In]; tauto|now destruct (ENABLE_DHT cfg)].
    + exists ("enable-peer-exchange=" ++ (if ENABLE_PEX cfg then "true" else "false")).
      split; [apply in_or_app; left; cbn [In]; tauto|now destruct (ENABLE_PEX cfg)].
    + exists ("max-overall-download-limit=" ++ MAX_OVERALL_DOWNLOAD_LIMIT cfg).
      split; [apply in_or_app; left; cbn [In]; tauto|reflexivity].
    + exists ("max-overall-upload-limit=" ++ MAX_OVERALL_UPLOAD_LIMIT cfg).
      split; [apply in_or_app; left; cbn [In]; tauto|reflexivity].
    + exists ("max-connection-per-server=" ++ MAX_CONNECTIONS_PER_SERVER cfg).
      split; [apply in_or_app; left; cbn [In]; tauto|reflexivity].
    + exists "continue=true".
      split; [apply in_or_app; left; cbn [In]; tauto|reflexivity].
    + exists "summary-interval=1".
      split; [apply in_or_app; left; cbn [In]; tauto|reflexivity].
    + exists ("dir=" ++ DEFAULT_DOWNLOAD_DIR cfg).
      split; [apply in_or_app; left; cbn [In]; tauto|reflexivity].
    + exists ("listen-port=" ++ LISTEN_PORT cfg).
      split; [apply in_or_app; left; cbn [In]; tauto|reflexivity].
  - right. destruct (EXTRA_TRACKERS cfg) as [|t ts] eqn:E; [contradiction|].
    cbn [In] in H. destruct H as [<-|[]].
    exists ("bt-tracker=" ++ PyStr.join "," (t :: ts)).
    split; [apply in_or_app; right; now left|reflexivity].
Qed.

Lemma command_line_repeats_config_witness :
  "--listen-port=6881" = "--auto-file-renaming=true"
  \/ exists line, In line (config_lines demo_config) /\ "--listen-port=6881" = "--" ++ line.
Proof.
  apply (command_line_repeats_config demo_config "--listen-port=6881").
  cbn. tauto.
Defined.

(** ** The last word of a run *)

(** X12. A run that ends with exit status 0 or 2 ends by saying how it
    went: with status 0 the last thing shown is the message of completion
    of [run_with_progress]; with status 2 it is [[ERROR] ] followed by the
    text of the exception that [download_with_retries] raised. *)
Theorem run_ends_with_its_verdict (env : Env) (cfg : Config) :
  (fst (run env cfg) = 0 ->
   last_of (trace (snd (run env cfg)))
   = Some (EvPrint "[INFO] Download completed successfully."))
  /\ (fst (run env cfg) = 2 ->
      exists typed e,
        stdin_line env = Some typed
        /\ fst (download_with_retries env cfg (PyStr.strip typed)
                  (after init_state 0 (prelude_events env cfg))) = Raise e
        /\ last_of (trace (snd (run env cfg)))
           = Some (EvPrint ("[ERROR] " ++ exn_msg e))).
Proof.
  destruct (run_has_shape env cfg)
    as [Hin|typed Hin He|typed Hin Hne Ha|typed Hin Hne Ha Hu Hp
        |typed k evs Hin Hchk Hd Hsup [front ->] Hk1|typed k evs e Hin Hchk Hd Hsup Hk0];
    cbn [fst snd after trace init_state app];
    split; try discriminate; intros _.
  - rewrite app_assoc. apply last_of_app_single.
  - exists typed, e. split; [exact Hin|]. split; [now rewrite Hd|].
    rewrite app_assoc. apply last_of_app_single.
Qed.

Lemma run_ends_with_its_verdict_witness :
  last_of (trace (snd (run (demo_machine (always_exits 0)) demo_config)))
  = Some (EvPrint "[INFO] Download completed successfully.").
Proof.
  exact (proj1 (run_ends_with_its_verdict (demo_machine (always_exits 0)) demo_config)
           eq_refl).
Defined.

(** ** White space around the input *)

Section InputFacts.

Lemma rstrip_idempotent (s : string) : PyStr.rstrip (PyStr.rstrip s) = PyStr.rstrip s.
Proof.
  induction s as [|c r IH]; [reflexivity|]. cbn [PyStr.rstrip].
  destruct (PyStr.rstrip r) as [|d r'] eqn:E.
  - destruct (PyStr.is_space c) eqn:Hc; [reflexivity|].
    cbn [PyStr.rstrip]. now rewrite Hc.
  - cbn [PyStr.rstrip] in *. now rewrite IH.
Qed.

Lemma lstrip_rstrip_lstrip (s : string) :
  PyStr.lstrip (PyStr.rstrip (PyStr.lstrip s)) = PyStr.rstrip (PyStr.lstrip s).
Proof.
  induction s as [|c r IH]; [reflexivity|]. cbn [PyStr.lstrip].
  destruct (PyStr.is_space c) eqn:Hc; [exact IH|].
  cbn [PyStr.rstrip]. destruct (PyStr.rstrip r); rewrite ?Hc; cbn [PyStr.lstrip];
    now rewrite Hc.
Qed.

Lemma strip_idempotent (s : string) : PyStr.strip (PyStr.strip s) = PyStr.strip s.
Proof.
  unfold PyStr.strip. now rewrite lstrip_rstrip_lstrip, rstrip_idempotent.
Qed.

End InputFacts.

(** X13. What is typed matters only up to the white space around it: two
    inputs with the same stripped text give, on the same machine, the same
    exit status and the same trace; so typing an input or typing it already
    stripped makes no difference. *)
Theorem surrounding_white_space_is_ignored
    (env : Env) (cfg : Config) (typed1 typed2 : string) :
  PyStr.strip typed1 = PyStr.strip typed2 ->
  run (with_input env typed1) cfg = run (with_input env typed2) cfg.
Proof.
  intros H.
  cbv beta iota zeta delta [run main input bind emit ret print stdin_line with_input].
  rewrite H. reflexivity.
Qed.

Lemma surrounding_white_space_is_ignored_witness :
  run (with_input (demo_machine (always_exits 0)) "  magnet:?xt=urn:btih:EXAMPLE  ")
      demo_config
  = run (with_input (demo_machine (always_exits 0)) "magnet:?xt=urn:btih:EXAMPLE")
        demo_config.
Proof.
  apply (surrounding_white_space_is_ignored (demo_machine (always_exits 0)) demo_config).
  reflexivity.
Defined.

(** ** A negative delay base *)

(** X15. With a negative delay base and a budget of at least two, the first
    attempt that exits non-zero ends the download: the delay passed to
    [time.sleep] is negative, the [ValueError] it raises leaves the handler
    and the function, and no second attempt and no fallback attempt is
    made. *)
Theorem negative_delay_aborts_download
    (env : Env) (cfg : Config) (input_link : string) (args : list string)
    (st : State) (lines : list string) (rc : Z) :
  RETRY_DELAY_BASE cfg < 0 -> 2 <= RETRY_COUNT cfg ->
  build_aria2_args env cfg input_link = Some args ->
  engine env (launches st) (ARIA2_PATH cfg :: args) = Runs lines rc -> rc <> 0 ->
  exists evs,
    download_with_retries env cfg input_link st
    = (Raise (Exn ValueError "sleep length must be non-negative"), after st 1 evs)
    /\ schedule evs = [EvSpawn (ARIA2_PATH cfg :: args)].
Proof.
  intros HB HR Hargs E N.
  unfold download_with_retries. rewrite Hargs, py_range_cons by lia.
  unfold bind at 1.
  rewrite (retry_loop_bad_delay env cfg args 1 _ st (Exn RuntimeError (exit_message rc)));
    [|rewrite E; now apply failed_exit|reflexivity|lia|lia].
  eexists. split; [reflexivity|].
  rewrite schedule_banner, schedule_app, schedule_attempt_events. reflexivity.
Qed.

Lemma negative_delay_aborts_download_witness :
  fst (download_with_retries (demo_machine (always_exits 1)) (demo_config_with 3 (-5))
         demo_magnet init_state)
  = Raise (Exn ValueError "sleep length must be non-negative").
Proof.
  destruct (negative_delay_aborts_download
              (demo_machine (always_exits 1)) (demo_config_with 3 (-5)) demo_magnet
              _ init_state [] 1 ltac:(cbn; lia) ltac:(cbn; lia) eq_refl eq_refl
              ltac:(discriminate)) as [evs [Hd _]].
  now rewrite Hd.
Defined.

(** ** The engine's own readout *)

Lemma plain_app (avoid : ascii) (a b : string) :
  plain avoid (a ++ b) = plain avoid a && plain avoid b.
Proof.
  induction a as [|c r IH]; [reflexivity|]. cbn [append plain].
  now rewrite IH, !andb_assoc.
Qed.

Lemma readout_rule (p : Z) : extraction_rule (readout_line p) = None.
Proof.
  unfold extraction_rule, readout_line.
  set (tok := PyStr.str_of_int p).
  assert (Hp : plain "%" tok = true) by now apply plain_str_of_int.
  rewrite contains_app_r
    by (apply contains_app_r; cbn [PyStr.contains]; now rewrite Ascii.eqb_refl).
  rewrite before_first_app by reflexivity.
  change ("%) CN:3 ...]") with (String "%" ") CN:3 ...]").
  rewrite (before_first_token "%" tok _ Hp).
  change ("[#abc1 1.2MiB/10MiB(" ++ tok)
    with ("[#abc1" ++ String " " ("1.2MiB/10MiB(" ++ tok)).
  assert (Htok : plain "%" ("1.2MiB/10MiB(" ++ tok) = true)
    by (rewrite plain_app, Hp; reflexivity).
  unfold PyStr.split.
  destruct (split_go_after_space "%" "[#abc1" " " ("1.2MiB/10MiB(" ++ tok)
              eq_refl Htok ltac:(discriminate)) as [t [front ->]].
  destruct (push_token_ends t ("1.2MiB/10MiB(" ++ tok) front) as [front' ->].
  rewrite last_of_app_single.
  unfold PyStr.int. rewrite (strip_plain "%" _ Htok). reflexivity.
Qed.

(** C5. The script reads no percentage from the engine's readout.  On the
    description's example line, [[#abc1 1.2MiB/10MiB(12%) CN:3 ...]], the
    token before the percent sign is [1.2MiB/10MiB(12]; [int] raises, the
    exception is swallowed, and the bar stays where it was instead of going
    to 12.  The same holds of the readout at every percentage, so a
    download reported in this format never moves the bar from 0. *)
Theorem readout_percentage_is_never_extracted :
  parse_percent (PyStr.strip example_line)
  = Raise (Exn ValueError "invalid literal for int() with base 10")
  /\ observe 0 example_line init_state
     = (Ok 0, after init_state 0 [EvPrint example_line])
  /\ fst (observe 0 example_line init_state) <> Ok 12
  /\ readout_line 12 = example_line
  /\ (forall (p n : Z) (st : State),
        observe n (readout_line p) st
        = (Ok n, after st 0 [EvPrint (PyStr.strip (readout_line p))]))
  /\ (forall (percentages : list Z) (st : State),
        fst (consume 0 (map readout_line percentages) st) = Ok 0).
Proof.
  split; [reflexivity|]. split; [reflexivity|]. split; [discriminate|].
  split; [reflexivity|]. split.
  - intros p n st. rewrite observe_spec. unfold refresh_of.
    now rewrite readout_rule.
  - intros ps st. rewrite consume_spec. cbn [fst]. f_equal.
    unfold bar_value, accepted.
    induction ps as [|p r IH]; [reflexivity|].
    cbn [map flat_map]. now rewrite readout_rule.
Qed.
